(** * The Potpie agent tools: a shallow embedding of [agent.py]

    The file follows the layout of
    [submissions/github-agno-potpie-agent/source/agent.py]:

    - Python values as the program sees them (the JSON documents returned
      by [response.json()], [str], [repr], truthiness, [dict.get]);
    - the outside world: the remote API as a script of replies, the wall
      clock, and the list of requests issued so far;
    - a small monad for Python control flow (return, raise, and the fuel of
      the one [while True] loop), with [try ... except];
    - class [Potpie] and the five tool functions;
    - the properties of the tools.

    Logging is left out: no statement below is about log records.
    [await asyncio.to_thread(f, ...)] runs [f] and waits for its result,
    so it is modelled as the call itself.  The [@tool] decorator belongs
    to the agent framework, which is not part of the repository; a
    decorated tool is taken to be the function it decorates. *)

From Stdlib Require Import String Ascii List ZArith QArith Lia Lqa Bool Arith.
From Stdlib Require Import DecimalString.
Import ListNotations.

Local Close Scope Q_scope.
Local Open Scope list_scope.
Local Open Scope string_scope.
#[local] Set Warnings "-register-all".

(** ** Python strings *)

Module PyStr.

(** [needle in hay] on [str]. *)
Fixpoint str_in (needle hay : string) : bool :=
  String.prefix needle hay ||
  match hay with
  | EmptyString => false
  | String _ hay' => str_in needle hay'
  end.

(** [s.startswith(p)]. *)
Definition startswith (s p : string) : bool := String.prefix p s.

(** Number of occurrences of one character. *)
Fixpoint count_char (c : ascii) (s : string) : nat :=
  match s with
  | EmptyString => 0
  | String a s' => (if Ascii.eqb a c then 1 else 0) + count_char c s'
  end.

(** [sep.join(parts)]. *)
Fixpoint join (sep : string) (parts : list string) : string :=
  match parts with
  | [] => ""
  | [p] => p
  | p :: rest => p ++ sep ++ join sep rest
  end.

Definition dquote : ascii := ascii_of_nat 34.
Definition squote : ascii := ascii_of_nat 39.
Definition backslash : ascii := ascii_of_nat 92.
Definition newline : string := String (ascii_of_nat 10) "".

Definition has_char (c : ascii) (s : string) : bool :=
  negb (Nat.eqb (count_char c s) 0).

Definition hex_digit (n : nat) : ascii :=
  match String.get n "0123456789abcdef" with
  | Some c => c
  | None => "0"%char
  end.

(** One character of [repr(s)], for the quote character [q] chosen for
    the whole string.  Bytes from 128 up belong to the UTF-8 encoding of
    a character outside ASCII and are kept, as CPython does for every
    printable character. *)
Definition repr_char (q c : ascii) : string :=
  let n := nat_of_ascii c in
  if Ascii.eqb c q then String backslash (String c "")
  else if Ascii.eqb c backslash then String backslash (String backslash "")
  else if Nat.eqb n 9 then String backslash "t"
  else if Nat.eqb n 10 then String backslash "n"
  else if Nat.eqb n 13 then String backslash "r"
  else if Nat.ltb n 32 || Nat.eqb n 127
       then String backslash
              (String "x" (String (hex_digit (n / 16))
                             (String (hex_digit (n mod 16)) "")))
  else String c "".

Fixpoint repr_chars (q : ascii) (s : string) : string :=
  match s with
  | EmptyString => ""
  | String c s' => repr_char q c ++ repr_chars q s'
  end.

(** [repr(s)] of a [str]: single quotes, unless the text has a single
    quote and no double quote. *)
Definition repr_str (s : string) : string :=
  let q := if has_char squote s && negb (has_char dquote s)
           then dquote else squote in
  String q (repr_chars q s) ++ String q "".

(** [str(n)] of an [int]. *)
Definition str_int (n : Z) : string := NilZero.string_of_int (Z.to_int n).

End PyStr.

Import PyStr.

(** ** Python values

    What [response.json()] can return, and so every value the tools
    handle besides their [str] arguments.  A [dict] is kept as the list of
    its items, because [str] of a [dict] prints them in insertion order;
    its keys are distinct, so a lookup finds the first match.  Numbers are
    integers (a JSON number with a fraction is outside the model). *)

Inductive json : Type :=
| JNull
| JBool (b : bool)
| JNum (n : Z)
| JStr (s : string)
| JArr (items : list json)
| JObj (fields : list (string * json)).

Module Py.

Fixpoint dict_get (d : list (string * json)) (key : string) : option json :=
  match d with
  | [] => None
  | (k, v) :: d' => if String.eqb k key then Some v else dict_get d' key
  end.

(** [d.get(key)] on a [dict]: [None] for a missing key. *)
Definition get (d : list (string * json)) (key : string) : json :=
  match dict_get d key with
  | Some x => x
  | None => JNull
  end.

(** [repr(v)]. *)
Fixpoint repr (v : json) : string :=
  match v with
  | JNull => "None"
  | JBool true => "True"
  | JBool false => "False"
  | JNum n => str_int n
  | JStr s => repr_str s
  | JArr items => "[" ++ join ", " (map repr items) ++ "]"
  | JObj fields =>
      "{" ++ join ", "
               (map (fun kv => match kv with
                               | (k, x) => repr_str k ++ ": " ++ repr x
                               end) fields) ++ "}"
  end.

(** [str(v)], which is also what an f-string field [{v}] prints. *)
Definition str (v : json) : string :=
  match v with
  | JStr s => s
  | _ => repr v
  end.

(** Truth value: [None], [False], [0] and the empty [str], [list] and
    [dict] are false. *)
Definition truthy (v : json) : bool :=
  match v with
  | JNull => false
  | JBool b => b
  | JNum n => negb (Z.eqb n 0)
  | JStr s => negb (String.eqb s "")
  | JArr items => match items with [] => false | _ => true end
  | JObj fields => match fields with [] => false | _ => true end
  end.

(** [v == s] for a [str] literal [s]. *)
Definition eq_str (v : json) (s : string) : bool :=
  match v with
  | JStr t => String.eqb t s
  | _ => false
  end.

(** [isinstance(v, dict)]. *)
Definition is_dict (v : json) : bool :=
  match v with JObj _ => true | _ => false end.

(** [type(v).__name__]. *)
Definition type_name (v : json) : string :=
  match v with
  | JNull => "NoneType"
  | JBool _ => "bool"
  | JNum _ => "int"
  | JStr _ => "str"
  | JArr _ => "list"
  | JObj _ => "dict"
  end.

End Py.

(** ** Exceptions

    The classes the handlers of [agent.py] tell apart.  As the class of a
    raised object, [Exception] stands for any other subclass of
    [Exception]; in an [except] clause it catches all of them.
    [str(e)] is [exn_msg e]. *)

Inductive pyclass : Type :=
| Exception
| RequestException   (* requests.exceptions.RequestException and below *)
| TimeoutError       (* the builtin *)
| AttributeError
| KeyError
| ValueError.

Record exn : Type := mkExn { exn_class : pyclass; exn_msg : string }.

Definition pyclass_eqb (a b : pyclass) : bool :=
  match a, b with
  | Exception, Exception | RequestException, RequestException
  | TimeoutError, TimeoutError | AttributeError, AttributeError
  | KeyError, KeyError | ValueError, ValueError => true
  | _, _ => false
  end.

(** [isinstance(e, c)], which is how an [except c] clause selects. *)
Definition isinstance (e : exn) (c : pyclass) : bool :=
  match c with
  | Exception => true
  | _ => pyclass_eqb (exn_class e) c
  end.

(** ** The outside world

    The remote API is a script: the [n]-th request of a run gets the
    [n]-th reply, whatever it asks.  A reply is what [requests.request],
    [raise_for_status] and [response.json()] make of it together: a
    decoded document or an exception, and the time the exchange took on
    the wall clock, in seconds.  Clock readings are rational numbers, as
    the floats of [time.time()] are, and the clock does not run backwards.
    The time a request takes can be 0: [time.time()] need not tick between
    two reads. *)

Record request : Type := mkRequest {
  method : string;
  url : string;
  json_data : option json
}.

Inductive answer : Type :=
| Ok (body : json)
| Fail (e : exn).

Record reply : Type := mkReply {
  took : Q;
  reply_answer : answer;
  took_nonneg : Qle_bool 0 took = true
}.

Definition remote : Type := nat -> reply.

(** The state a run threads: the reading of the wall clock, in seconds,
    and the requests issued so far, oldest first. *)
Record world : Type := mkWorld { now : Q; calls : list request }.

Definition boot (t0 : Q) : world := {| now := t0; calls := [] |}.

(** ** Control flow *)

Inductive result (A : Type) : Type :=
| Return (a : A)
| Raise (e : exn)
| Diverge.          (* the loop fuel ran out *)

Arguments Return {A} a.
Arguments Raise {A} e.
Arguments Diverge {A}.

Definition M (A : Type) : Type := world -> result A * world.

Definition ret {A} (a : A) : M A := fun w => (Return a, w).

Definition raise {A} (e : exn) : M A := fun w => (Raise e, w).

Definition bind {A B} (m : M A) (k : A -> M B) : M B :=
  fun w =>
    match m w with
    | (Return a, w') => k a w'
    | (Raise e, w') => (Raise e, w')
    | (Diverge, w') => (Diverge, w')
    end.

Notation "x <- m ;; k" := (bind m (fun x => k))
  (at level 61, m at next level, right associativity).
Notation "m ;;; k" := (bind m (fun _ => k))
  (at level 61, right associativity).

(** The clauses of a [try] statement, in order: the first clause whose
    class the exception is an instance of runs; with none, the exception
    goes on. *)
Fixpoint handle {A} (clauses : list (pyclass * (exn -> M A))) (e : exn) : M A :=
  match clauses with
  | [] => raise e
  | (c, h) :: rest => if isinstance e c then h e else handle rest e
  end.

Definition try_except {A} (body : M A) (clauses : list (pyclass * (exn -> M A)))
  : M A :=
  fun w =>
    match body w with
    | (Raise e, w') => handle clauses e w'
    | r => r
    end.

(** [time.time()]. *)
Definition time_time : M Q := fun w => (Return (now w), w).

(** [x > y] on clock readings. *)
Definition Qgtb (x y : Q) : bool := negb (Qle_bool x y).

Definition negative_sleep : exn :=
  mkExn ValueError "sleep length must be non-negative".

(** [time.sleep(secs)].  It returns after [secs] seconds; a longer sleep
    is covered by the time the next request takes. *)
Definition time_sleep (secs : Z) : M unit :=
  if (secs <? 0)%Z
  then raise negative_sleep
  else fun w => (Return tt, {| now := now w + inject_Z secs;
                               calls := calls w |}).

(** [v.get(key)]: a [dict] answers, with [None] for a missing key; no
    other JSON value has the method. *)
Definition no_get (v : json) : exn :=
  mkExn AttributeError ("'" ++ Py.type_name v ++ "' object has no attribute 'get'").

Definition py_get (v : json) (key : string) : M json :=
  match v with
  | JObj d => ret (Py.get d key)
  | _ => raise (no_get v)
  end.

(** [key in v] for a [dict] [v]. *)
Definition py_has_key (key : string) (v : json) : bool :=
  match v with
  | JObj d => match Py.dict_get d key with Some _ => true | None => false end
  | _ => false
  end.

(** [v[key]]; the tools use it on a [dict] that has the key. *)
Definition py_getitem (v : json) (key : string) : M json :=
  match v with
  | JObj d => match Py.dict_get d key with
              | Some x => ret x
              | None => raise (mkExn KeyError (repr_str key))
              end
  | _ => raise (mkExn Exception "object is not subscriptable")
  end.

(** ** class Potpie *)

Section Agent.

(** The remote API the client talks to. *)
Variable api : remote.

Definition BASE_URL : string := "https://production-api.potpie.ai/api/v2".

(** [Potpie._make_request].  The request is issued (and recorded), the
    clock moves by the time the exchange took, and the reply is returned
    or raised.  The [except RequestException] clause logs and re-raises,
    so every exception leaves unchanged. *)
Definition _make_request (method endpoint : string) (json_data : option json)
  : M json :=
  let url := BASE_URL ++ endpoint in
  try_except
    (fun w =>
       let r := api (length (calls w)) in
       let w' := {| now := now w + took r;
                    calls := calls w ++ [mkRequest method url json_data] |} in
       match reply_answer r with
       | Ok result => (Return result, w')
       | Fail e => (Raise e, w')
       end)
    [ (RequestException, fun e => raise e) ].

(** [Potpie.parse_repository]. *)
Definition parse_repository (repo_name branch_name : string) : M json :=
  let endpoint := "/parse" in
  let payload := JObj [("repo_name", JStr repo_name);
                       ("branch_name", JStr branch_name)] in
  _make_request "POST" endpoint (Some payload).

(** The exception [Potpie.get_parsing_status] raises at its deadline. *)
Definition timed_out (project_id : json) (timeout : Z) : exn :=
  mkExn TimeoutError
    ("Project " ++ Py.str project_id ++ " did not become ready within "
     ++ str_int timeout ++ " seconds.").

(** The body of [while True] in [Potpie.get_parsing_status]; [fuel]
    bounds the number of rounds. *)
Fixpoint poll (fuel : nat) (project_id : json) (endpoint : string)
    (wait_for_ready : bool) (timeout poll_interval : Z) (start_time : Q)
  : M json :=
  match fuel with
  | O => fun w => (Diverge, w)
  | S fuel' =>
      status_data <- _make_request "GET" endpoint None ;;
      done <- (if negb wait_for_ready then ret true
               else status <- py_get status_data "status" ;;
                    ret (Py.eq_str status "ready")) ;;
      if (done : bool) then ret status_data
      else
        t <- time_time ;;
        if Qgtb (t - start_time) (inject_Z timeout)
        then raise (timed_out project_id timeout)
        else
          time_sleep poll_interval ;;;
          poll fuel' project_id endpoint wait_for_ready
               timeout poll_interval start_time
  end.

(** [Potpie.get_parsing_status]; the defaults of the source are
    [wait_for_ready=True], [timeout=300], [poll_interval=10]. *)
Definition get_parsing_status (fuel : nat) (project_id : json)
    (wait_for_ready : bool) (timeout poll_interval : Z) : M json :=
  let endpoint := "/parsing-status/" ++ Py.str project_id in
  start_time <- time_time ;;
  poll fuel project_id endpoint wait_for_ready timeout poll_interval start_time.

Definition default_timeout : Z := 300.
Definition default_poll_interval : Z := 10.

(** [Potpie.create_conversation]. *)
Definition create_conversation (project_ids : list json)
    (agent_ids : option (list json)) : M json :=
  let endpoint := "/conversations" in
  let payload := [("project_ids", JArr project_ids)] in
  let payload :=
    match agent_ids with
    | Some (a :: ids) => (payload ++ [("agent_ids", JArr (a :: ids))])%list
    | _ => payload
    end in
  _make_request "POST" endpoint (Some (JObj payload)).

(** [Potpie.send_message]. *)
Definition send_message (conversation_id : json) (content : string)
    (agent_id : option string) (node_ids : option (list json)) : M json :=
  let endpoint := "/conversations/" ++ Py.str conversation_id ++ "/message" in
  let payload :=
    JObj [("content", JStr content);
          ("agent_id", match agent_id with Some a => JStr a | None => JNull end);
          ("node_ids", JArr (match node_ids with Some l => l | None => [] end))] in
  _make_request "POST" endpoint (Some payload).

(** ** The agent tools *)

(** [start_repo_parsing(repo_name, branch_name="main")]. *)
Definition start_repo_parsing (repo_name branch_name : string) : M string :=
  try_except
    (if String.eqb repo_name "" || negb (str_in "/" repo_name)
     then ret "Invalid repository name format. Expected format: 'owner/repo'"
     else
       result <- parse_repository repo_name branch_name ;;
       if Py.is_dict result && py_has_key "project_id" result
       then
         project_id <- py_getitem result "project_id" ;;
         ret ("Successfully started parsing repository " ++ repo_name
              ++ newline ++ "Project ID: " ++ Py.str project_id
              ++ newline ++ "Status: Parsing initiated")
       else ret "Failed to parse repository: Invalid API response format")
    [ (RequestException,
       fun e => ret ("Failed to parse repository: Network error - " ++ exn_msg e));
      (Exception,
       fun e => ret ("Failed to parse repository: " ++ exn_msg e)) ].

(** [check_repo_parsing_status(project_id)]. *)
Definition check_repo_parsing_status (fuel : nat) (project_id : string)
  : M string :=
  try_except
    (if String.eqb project_id ""
     then ret "Invalid project_id: Project ID cannot be empty"
     else
       status <- get_parsing_status fuel (JStr project_id) false
                   default_timeout default_poll_interval ;;
       if Py.is_dict status
       then
         status_value <- py_get status "status" ;;
         if Py.truthy status_value
         then ret ("Current parsing status: " ++ Py.str status_value)
         else ret "Failed to get parsing status: Invalid response format"
       else ret "Failed to get parsing status: Invalid API response type")
    [ (RequestException,
       fun e => ret ("Failed to get parsing status: Network error - " ++ exn_msg e));
      (Exception,
       fun e => ret ("Failed to get parsing status: " ++ exn_msg e)) ].

(** The test of the short-circuit in [ask_parsed_repo]:
    [parsing_status.get("status") != "ready"]. *)
Definition not_ready (status : json) : bool := negb (Py.eq_str status "ready").

(** [ask_parsed_repo(project_id, query)].  [analyze_repository] and
    [get_repository_trends] pass the [project_id] of a parse response,
    which can be any JSON value, so the argument is one. *)
Definition ask_parsed_repo (fuel : nat) (project_id : json) (query : string)
  : M string :=
  try_except
    (parsing_status <- get_parsing_status fuel project_id true
                         600 default_poll_interval ;;
     status <- py_get parsing_status "status" ;;
     if not_ready status
     then ret ("Project " ++ Py.str project_id
               ++ " is not ready for querying. Status: " ++ Py.str status)
     else
       conversation_data <- create_conversation [project_id] None ;;
       conversation_id <- py_get conversation_data "conversation_id" ;;
       if negb (Py.truthy conversation_id)
       then ret "Failed to create Potpie conversation."
       else
         message_response <- send_message conversation_id query None None ;;
         ret (Py.str message_response))
    [ (TimeoutError,
       fun e => ret ("Timeout waiting for repository parsing to complete: "
                     ++ exn_msg e));
      (Exception,
       fun e => ret ("Failed to query repository: " ++ exn_msg e)) ].

Definition analysis_query : string :=
  "Provide a detailed analysis of this repository including: "
  ++ "current number of stars, current number of forks, typical commit frequency (e.g., High, Medium, Low), "
  ++ "estimated average issue response time, assessment of documentation quality (e.g., score 1-10 or description), "
  ++ "overall code quality assessment (e.g., Excellent, Good, Fair), community engagement level (e.g., Very Active, Active, Low), "
  ++ "and maintenance status (e.g., Well Maintained, Needs Attention).".

(** [analyze_repository(repo_name)]. *)
Definition analyze_repository (fuel : nat) (repo_name : string) : M string :=
  try_except
    (parse_result <- parse_repository repo_name "main" ;;
     project_id <- py_get parse_result "project_id" ;;
     if negb (Py.truthy project_id)
     then ret ("Failed to get project_id when starting parsing for "
               ++ repo_name ++ ". Response: " ++ Py.str parse_result)
     else
       analysis_response <- ask_parsed_repo fuel project_id analysis_query ;;
       if startswith analysis_response "Failed"
       then ret analysis_response
       else ret ("Analysis of repository " ++ repo_name ++ ": "
                 ++ analysis_response))
    [ (TimeoutError,
       fun e => ret ("Timeout waiting for repository parsing/analysis: "
                     ++ exn_msg e));
      (Exception,
       fun e => ret ("Failed to analyze repository: " ++ exn_msg e)) ].

Definition trends_query : string :=
  "Provide recent trending metrics for this repository including: "
  ++ "star growth rate (e.g., percentage increase over the last month), "
  ++ "fork growth rate (e.g., percentage increase over the last month), "
  ++ "new contributor growth (e.g., number of new contributors in the last month), "
  ++ "and the recent commit frequency trend (e.g., Increasing, Stable, Decreasing).".

(** [get_repository_trends(repo_name)].  [trends_response] is the [str]
    that [ask_parsed_repo] returned; the two [isinstance(..., dict)]
    tests are made on it as written. *)
Definition get_repository_trends (fuel : nat) (repo_name : string) : M string :=
  try_except
    (parse_result <- parse_repository repo_name "main" ;;
     project_id <- py_get parse_result "project_id" ;;
     if negb (Py.truthy project_id)
     then ret ("Failed to get project_id when starting parsing for "
               ++ repo_name ++ ". Response: " ++ Py.str parse_result)
     else
       trends_response <- ask_parsed_repo fuel project_id trends_query ;;
       let v := JStr trends_response in
       if Py.is_dict v && py_has_key "error" v
       then e <- py_getitem v "error" ;;
            ret ("Potpie query failed for trends: " ++ Py.str e)
       else if Py.is_dict v && py_has_key "response" v
       then r <- py_getitem v "response" ;;
            ret ("Potpie trends response for " ++ repo_name ++ ": " ++ Py.str r)
       else ret ("Potpie trends raw response for " ++ repo_name ++ ": "
                 ++ trends_response))
    [ (TimeoutError,
       fun e => ret ("Timeout waiting for repository parsing/trends: "
                     ++ exn_msg e));
      (Exception,
       fun e => ret ("Failed to get repository trends: " ++ exn_msg e)) ].

End Agent.

(** ** Start-up

    The two keys come from [os.getenv]: [None] when the variable is not
    set, else its text.  The tools are listed by name.  [main] is given as
    what it does at the console: what it prints, what it asks, and the call
    of the agent (whose own work belongs to the agent framework). *)

(** [bool(key)] for a value of [os.getenv]. *)
Definition env_set (key : option string) : bool :=
  match key with
  | Some s => negb (String.eqb s "")
  | None => false
  end.

(** [agent_tools] as the module leaves it: the five tools, or none when a
    key is missing. *)
Definition agent_tools (GROQ_API_KEY POTPIE_API_KEY : option string)
  : list string :=
  let agent_tools := [ "start_repo_parsing"; "check_repo_parsing_status";
                       "ask_parsed_repo"; "analyze_repository";
                       "get_repository_trends" ] in
  if negb (env_set GROQ_API_KEY) || negb (env_set POTPIE_API_KEY)
  then []
  else agent_tools.

Inductive console : Type :=
| Print (line : string)
| Input (prompt : string)
| AgentRun (message : string).

(** [main()], where [typed] is the line the user enters. *)
Definition main (GROQ_API_KEY POTPIE_API_KEY : option string) (typed : string)
  : list console :=
  if negb (env_set GROQ_API_KEY) || negb (env_set POTPIE_API_KEY)
  then [ Print "CRITICAL: Either GROQ_API_KEY or POTPIE_API_KEY is not set. Potpie-dependent tools are disabled." ]
  else [ Input "Enter your message: ";
         Print ("--- Sending message to agent: '" ++ typed ++ "' ---");
         AgentRun typed;
         Print (newline ++ "--- Agent finished ---") ].

(** ** Vocabulary of the statements *)

(** The requests the client can issue. *)
Definition parse_request (repo_name branch_name : string) : request :=
  mkRequest "POST" (BASE_URL ++ "/parse")
    (Some (JObj [("repo_name", JStr repo_name); ("branch_name", JStr branch_name)])).

Definition status_endpoint (project_id : json) : string :=
  "/parsing-status/" ++ Py.str project_id.

Definition status_request (endpoint : string) : request :=
  mkRequest "GET" (BASE_URL ++ endpoint) None.

Definition conversation_request (project_id : json) : request :=
  mkRequest "POST" (BASE_URL ++ "/conversations")
    (Some (JObj [("project_ids", JArr [project_id])])).

Definition message_request (conversation_id : json) (content : string) : request :=
  mkRequest "POST"
    (BASE_URL ++ "/conversations/" ++ Py.str conversation_id ++ "/message")
    (Some (JObj [("content", JStr content); ("agent_id", JNull);
                 ("node_ids", JArr [])])).

(** The world after one more request that took [t] seconds, and after a
    sleep of [secs] seconds. *)
Definition after_request (w : world) (r : request) (t : Q) : world :=
  {| now := now w + t; calls := (calls w ++ [r])%list |}.

Definition after_sleep (w : world) (secs : Z) : world :=
  {| now := now w + inject_Z secs; calls := calls w |}.

(** A computation that comes to an end in every world, and one that
    always ends by returning. *)
Definition halts {A} (m : M A) : Prop :=
  forall w, fst (m w) <> Diverge.

Definition returns {A} (m : M A) : Prop :=
  forall w, exists a, fst (m w) = Return a.

(** A run that returns a string in which [text] occurs. *)
Definition carries (run : result string * world) (text : string) : Prop :=
  exists s, fst run = Return s /\ str_in text s = true.

(** A status record: a [dict] whose ["status"] is the given text. *)
Definition has_status (v : json) (s : string) : Prop :=
  exists d, v = JObj d /\ Py.dict_get d "status" = Some (JStr s).

Definition status_record (s : string) : json := JObj [("status", JStr s)].

(** A reply that is a record whose status is not "ready". *)
Definition pending (r : reply) : Prop :=
  exists d, reply_answer r = Ok (JObj d) /\
            Py.eq_str (Py.get d "status") "ready" = false.

(** The separator of a repository identifier. *)
Definition separator : ascii := "/"%char.

(** The strings of the validation and of the missing project id. *)
Definition invalid_repo_name : string :=
  "Invalid repository name format. Expected format: 'owner/repo'".

Definition no_project_id (repo_name : string) (parse_result : json) : string :=
  "Failed to get project_id when starting parsing for " ++ repo_name
  ++ ". Response: " ++ Py.str parse_result.

(** What the [except] clauses of each tool make of an exception. *)
Definition parse_failure (e : exn) : string :=
  if isinstance e RequestException
  then "Failed to parse repository: Network error - " ++ exn_msg e
  else "Failed to parse repository: " ++ exn_msg e.

Definition status_failure (e : exn) : string :=
  if isinstance e RequestException
  then "Failed to get parsing status: Network error - " ++ exn_msg e
  else "Failed to get parsing status: " ++ exn_msg e.

Definition ask_failure (e : exn) : string :=
  if isinstance e TimeoutError
  then "Timeout waiting for repository parsing to complete: " ++ exn_msg e
  else "Failed to query repository: " ++ exn_msg e.

Definition analyze_failure (e : exn) : string :=
  if isinstance e TimeoutError
  then "Timeout waiting for repository parsing/analysis: " ++ exn_msg e
  else "Failed to analyze repository: " ++ exn_msg e.

Definition trends_failure (e : exn) : string :=
  if isinstance e TimeoutError
  then "Timeout waiting for repository parsing/trends: " ++ exn_msg e
  else "Failed to get repository trends: " ++ exn_msg e.

(** ** Example scripts *)

(** The listed replies in order, then [rest] for ever. *)
Definition script (replies : list reply) (rest : reply) : remote :=
  fun n => nth n replies rest.

(** Every reply is instant and says "queued": the clock does not move
    during a request. *)
Definition frozen_queue : remote :=
  fun _ => mkReply 0 (Ok (status_record "queued")) eq_refl.

(** Every reply says "queued" and takes a millisecond. *)
Definition slow_queue : remote :=
  fun _ => mkReply (1 # 1000) (Ok (status_record "queued")) eq_refl.

(** A project that is ready, a conversation, an answer. *)
Definition ready_script : remote :=
  script [ mkReply (12 # 100) (Ok (status_record "ready")) eq_refl;
           mkReply (8 # 100) (Ok (JObj [("conversation_id", JStr "c1")])) eq_refl;
           mkReply (9 # 10) (Ok (JObj [("message", JStr "42")])) eq_refl ]
         (mkReply 1 (Ok JNull) eq_refl).

(** Two rounds of waiting, then ready. *)
Definition queued_twice : remote :=
  script [ mkReply (3 # 100) (Ok (status_record "queued")) eq_refl;
           mkReply (3 # 100) (Ok (status_record "queued")) eq_refl;
           mkReply (3 # 100) (Ok (status_record "ready")) eq_refl ]
         (mkReply 1 (Ok JNull) eq_refl).

(** The network is down. *)
Definition boom : exn := mkExn RequestException "boom".

Definition network_down : remote :=
  fun _ => mkReply (3 # 1000) (Fail boom) eq_refl.

(** Parsing starts at once. *)
Definition parse_ok : remote :=
  fun _ => mkReply (4 # 100) (Ok (JObj [("project_id", JStr "p1")])) eq_refl.

(** A parse response without the project id. *)
Definition parse_anonymous : remote :=
  fun _ => mkReply (4 # 100) (Ok (JObj [("detail", JStr "accepted")])) eq_refl.
(** ** Rounds of waiting *)

(** The time that [n] rounds of waiting take, from the request numbered
    [first]: each round is one fetch and one sleep. *)
Fixpoint waited (api : remote) (first n : nat) (interval : Z) : Q :=
  match n with
  | O => 0
  | S n' => took (api first) + inject_Z interval + waited api (S first) n' interval
  end.

(** The world after [n] rounds of waiting on the status [endpoint]. *)
Fixpoint after_rounds (api : remote) (endpoint : string) (interval : Z)
    (n : nat) (w : world) : world :=
  match n with
  | O => w
  | S n' =>
      after_rounds api endpoint interval n'
        (after_sleep
           (after_request w (status_request endpoint)
              (took (api (length (calls w)))))
           interval)
  end.


(** A parse response, a ready project, a conversation, an answer. *)
Definition full_script : remote :=
  script [ mkReply (4 # 100) (Ok (JObj [("project_id", JStr "p1")])) eq_refl;
           mkReply (12 # 100) (Ok (status_record "ready")) eq_refl;
           mkReply (8 # 100) (Ok (JObj [("conversation_id", JStr "c1")])) eq_refl;
           mkReply (9 # 10) (Ok (JObj [("message", JStr "42")])) eq_refl ]
         (mkReply 1 (Ok JNull) eq_refl).

(** A ready project, and a conversation reply without an id. *)
Definition no_conversation : remote :=
  script [ mkReply (12 # 100) (Ok (status_record "ready")) eq_refl;
           mkReply (8 # 100) (Ok (JObj [("detail", JStr "busy")])) eq_refl ]
         (mkReply 1 (Ok JNull) eq_refl).

(** A parse response whose project id is null. *)
Definition parse_null : remote :=
  fun _ => mkReply (4 # 100) (Ok (JObj [("project_id", JNull)])) eq_refl.


(** * Properties *)

(** ** Strings and values *)

Example repr_message :
  Py.str (JObj [("message", JStr "42")]) = "{'message': '42'}".
Proof. reflexivity. Qed.

Example repr_nested :
  Py.str (JObj [("a", JArr [JNum (-3); JNull; JBool true]); ("b", JStr "x'y")])
  = "{'a': [-3, None, True], 'b': " ++ String dquote ("x'y" ++ String dquote "}").
Proof. reflexivity. Qed.

Lemma prefix_nil (s : string) : String.prefix "" s = true.
Proof. now destruct s. Qed.

Lemma prefix_app (p s : string) : String.prefix p (p ++ s) = true.
Proof.
  induction p as [|c p IH]; simpl.
  - apply prefix_nil.
  - destruct (ascii_dec c c) as [_|N]; [exact IH | now elim N].
Qed.

Lemma prefix_split (p s : string) :
  String.prefix p s = true -> exists t, s = p ++ t.
Proof.
  revert s; induction p as [|c p IH]; intros s H.
  - now exists s.
  - destruct s as [|d s]; simpl in H; [discriminate|].
    destruct (ascii_dec c d) as [->|_]; [|discriminate].
    destruct (IH _ H) as [t ->]. now exists t.
Qed.

Lemma str_in_prefix (n s : string) : String.prefix n s = true -> str_in n s = true.
Proof. intros H. destruct s; cbn [str_in]; rewrite H; reflexivity. Qed.

Lemma str_in_app_r (n p s : string) : str_in n s = true -> str_in n (p ++ s) = true.
Proof.
  intros H. induction p as [|c p IH]; simpl; [exact H|].
  rewrite IH. apply orb_true_r.
Qed.

Lemma str_in_mid (p n q : string) : str_in n (p ++ n ++ q) = true.
Proof. apply str_in_app_r, str_in_prefix, prefix_app. Qed.

Lemma str_in_end (p n : string) : str_in n (p ++ n) = true.
Proof.
  replace (p ++ n) with (p ++ n ++ "").
  - apply str_in_mid.
  - f_equal. induction n as [|c n IH]; simpl; [reflexivity | now rewrite IH].
Qed.

(** [str_in] is the substring test. *)
Lemma str_in_spec (n s : string) :
  str_in n s = true <-> exists p q, s = p ++ n ++ q.
Proof.
  split.
  - induction s as [|c s IH]; cbn [str_in]; intros H.
    + rewrite orb_false_r in H. destruct (prefix_split _ _ H) as [t E].
      now exists "", t.
    + apply orb_true_iff in H. destruct H as [H|H].
      * destruct (prefix_split _ _ H) as [t E]. exists "", t. exact E.
      * destruct (IH H) as (p & q & ->). now exists (String c p), q.
  - intros (p & q & ->). apply str_in_mid.
Qed.

(** For one character, [c in s] says that [c] occurs in [s]. *)
Lemma str_in_char (c : ascii) (s : string) :
  str_in (String c "") s = true <-> In c (list_ascii_of_string s).
Proof.
  induction s as [|a s IH]; simpl.
  - split; [discriminate | tauto].
  - rewrite orb_true_iff, IH. destruct (ascii_dec c a) as [->|N].
    + rewrite prefix_nil. tauto.
    + split; [intros [H|H]; [discriminate | now right]
             | intros [H|H]; [now elim N | now right]].
Qed.

Lemma count_char_pos (c : ascii) (s : string) :
  1 <= count_char c s <-> In c (list_ascii_of_string s).
Proof.
  induction s as [|a s IH]; simpl.
  - split; [lia | tauto].
  - destruct (Ascii.eqb_spec a c) as [->|N].
    + split; [now left | lia].
    + simpl. rewrite IH. split; [now right | intros [H|H]; [now elim N | exact H]].
Qed.

(** ** Clock readings *)

Lemma Qgtb_true (x y : Q) : Qgtb x y = true <-> (y < x)%Q.
Proof.
  unfold Qgtb. rewrite negb_true_iff.
  destruct (Qle_bool x y) eqn:E.
  - apply Qle_bool_iff in E. split; [discriminate | intros H; lra].
  - split; [intros _ | reflexivity].
    apply Qnot_le_lt. intros H. apply Qle_bool_iff in H. congruence.
Qed.

Lemma Qgtb_false (x y : Q) : Qgtb x y = false <-> (x <= y)%Q.
Proof.
  unfold Qgtb. rewrite negb_false_iff. apply Qle_bool_iff.
Qed.

Lemma took_not_negative (r : reply) : (0 <= took r)%Q.
Proof. apply Qle_bool_iff, took_nonneg. Qed.

Lemma inject_nat_succ (n : nat) :
  (inject_Z (Z.of_nat (S n)) == inject_Z (Z.of_nat n) + 1)%Q.
Proof. now rewrite Nat2Z.inj_succ, <- Z.add_1_r, inject_Z_plus. Qed.

Lemma inject_nat_nonneg (n : nat) : (0 <= inject_Z (Z.of_nat n))%Q.
Proof. change 0%Q with (inject_Z 0). rewrite <- Zle_Qle. lia. Qed.

(** ** Single steps *)

Section Steps.

Variable api : remote.

Lemma bind_run {A B} (m : M A) (k : A -> M B) (w : world) :
  bind m k w = match m w with
               | (Return a, w') => k a w'
               | (Raise e, w') => (Raise e, w')
               | (Diverge, w') => (Diverge, w')
               end.
Proof. reflexivity. Qed.

(** One request: the reply of the script comes back as it is. *)
Lemma make_request_run (m ep : string) (d : option json) (w : world) :
  _make_request api m ep d w =
  (match reply_answer (api (length (calls w))) with
   | Ok j => Return j
   | Fail e => Raise e
   end,
   after_request w (mkRequest m (BASE_URL ++ ep) d)
                 (took (api (length (calls w))))).
Proof.
  unfold _make_request, try_except, after_request.
  destruct (reply_answer (api (length (calls w)))) as [j|e]; [reflexivity|].
  cbn [handle]. destruct (isinstance e RequestException); reflexivity.
Qed.

Lemma parse_repository_run (repo branch : string) (w : world) :
  parse_repository api repo branch w =
  (match reply_answer (api (length (calls w))) with
   | Ok j => Return j
   | Fail e => Raise e
   end,
   after_request w (parse_request repo branch) (took (api (length (calls w))))).
Proof. unfold parse_repository. apply make_request_run. Qed.

Lemma create_conversation_run (pid : json) (w : world) :
  create_conversation api [pid] None w =
  (match reply_answer (api (length (calls w))) with
   | Ok j => Return j
   | Fail e => Raise e
   end,
   after_request w (conversation_request pid) (took (api (length (calls w))))).
Proof. unfold create_conversation. apply make_request_run. Qed.

Lemma send_message_run (cid : json) (q : string) (w : world) :
  send_message api cid q None None w =
  (match reply_answer (api (length (calls w))) with
   | Ok j => Return j
   | Fail e => Raise e
   end,
   after_request w (message_request cid q) (took (api (length (calls w))))).
Proof.
  unfold send_message. now rewrite make_request_run.
Qed.

(** One round of the polling loop, spelled out on the world. *)
Lemma poll_round (fuel : nat) (pid : json) (ep : string) (wait : bool)
    (timeout interval : Z) (start : Q) (w : world) :
  poll api (S fuel) pid ep wait timeout interval start w =
  let r := api (length (calls w)) in
  let w1 := after_request w (status_request ep) (took r) in
  match reply_answer r with
  | Fail e => (Raise e, w1)
  | Ok j =>
      if negb wait then (Return j, w1)
      else match j with
           | JObj d =>
               if Py.eq_str (Py.get d "status") "ready" then (Return j, w1)
               else if Qgtb (now w1 - start) (inject_Z timeout)
                    then (Raise (timed_out pid timeout), w1)
               else if (interval <? 0)%Z then (Raise negative_sleep, w1)
               else poll api fuel pid ep wait timeout interval start
                      (after_sleep w1 interval)
           | _ => (Raise (no_get j), w1)
           end
  end.
Proof.
  cbn [poll]. rewrite bind_run, make_request_run. fold (status_request ep).
  cbv zeta. destruct (reply_answer (api (length (calls w)))) as [j|e];
    [|reflexivity].
  rewrite bind_run. destruct wait; cbn [negb]; [|reflexivity].
  rewrite bind_run.
  destruct j; try reflexivity.
  cbn [py_get ret]. destruct (Py.eq_str (Py.get fields "status") "ready");
    [reflexivity|].
  rewrite bind_run. cbn [time_time].
  destruct (Qgtb _ _); [reflexivity|].
  rewrite bind_run. unfold time_sleep.
  destruct (interval <? 0)%Z; reflexivity.
Qed.

Lemma get_parsing_status_run (fuel : nat) (pid : json) (wait : bool)
    (timeout interval : Z) (w : world) :
  get_parsing_status api fuel pid wait timeout interval w =
  poll api fuel pid (status_endpoint pid) wait timeout interval (now w) w.
Proof. reflexivity. Qed.

End Steps.

(** ** The polling loop *)

Section Polling.

Variable api : remote.

Lemma after_request_length w r t :
  length (calls (after_request w r t)) = S (length (calls w)).
Proof. unfold after_request; cbn. rewrite length_app; cbn. lia. Qed.

(** Case analysis on one round, leaving the recursive call (if any) in
    the goal. *)
Ltac round :=
  rewrite poll_round; cbv zeta; cbn [negb];
  repeat first
    [ match goal with
      | |- context [match reply_answer ?r with Ok _ => _ | Fail _ => _ end] =>
          let Hr := fresh "Hr" in destruct (reply_answer r) eqn:Hr
      end
    | match goal with
      | |- context [if negb ?b then _ else _] =>
          is_var b; destruct b; cbn [negb]
      end
    | match goal with
      | |- context [match ?j with JObj _ => _ | _ => _ end] =>
          is_var j; destruct j
      end
    | match goal with
      | |- context [if Py.eq_str ?x ?y then _ else _] =>
          let Hs := fresh "Hs" in destruct (Py.eq_str x y) eqn:Hs
      end
    | match goal with
      | |- context [if Qgtb ?a ?b then _ else _] =>
          let Ht := fresh "Ht" in destruct (Qgtb a b) eqn:Ht
      end
    | match goal with
      | |- context [if (?a <? 0)%Z then _ else _] =>
          let Hi := fresh "Hi" in destruct (a <? 0)%Z eqn:Hi
      end ].

(** The loop ends within its fuel when every round moves the clock
    towards the deadline: [timeout / poll_interval + 2] rounds are
    enough. *)
Lemma poll_halts (fuel : nat) :
  forall pid ep wait timeout interval start w,
    (0 < interval)%Z ->
    (1 <= fuel)%nat ->
    (inject_Z timeout - (now w - start)
     < (inject_Z (Z.of_nat fuel) - 1) * inject_Z interval)%Q ->
    fst (poll api fuel pid ep wait timeout interval start w) <> Diverge.
Proof.
  induction fuel as [|fuel IH]; intros pid ep wait timeout interval start w
    Hpos Hfuel Hrem; [lia|].
  round; cbn [fst]; try discriminate.
  apply Qgtb_false in Ht. cbn [now after_request] in Ht.
  pose proof (took_not_negative (api (length (calls w)))) as Hd.
  assert (HP : (0 < inject_Z interval)%Q)
    by (change 0%Q with (inject_Z 0); now rewrite <- Zlt_Qlt).
  rewrite inject_nat_succ in Hrem.
  set (P := inject_Z interval) in *.
  set (F := inject_Z (Z.of_nat fuel)) in *.
  assert (E : ((F + 1 - 1) * P == F * P)%Q) by ring.
  rewrite E in Hrem.
  apply IH; [exact Hpos | |].
  - destruct fuel as [|fuel]; [|lia].
    assert (Z0 : (F * P == 0)%Q) by (subst F; cbn; ring).
    rewrite Z0 in Hrem. lra.
  - cbn [now after_request after_sleep]. fold P F.
    assert (E' : ((F - 1) * P == F * P - P)%Q) by ring.
    rewrite E'. lra.
Qed.

(** The loop issues status requests only, one per round. *)
Lemma poll_calls (fuel : nat) :
  forall pid ep wait timeout interval start w,
  exists n, (n <= fuel)%nat /\
    calls (snd (poll api fuel pid ep wait timeout interval start w))
    = (calls w ++ repeat (status_request ep) n)%list.
Proof.
  induction fuel as [|fuel IH]; intros pid ep wait timeout interval start w.
  - exists 0%nat. cbn. now rewrite app_nil_r.
  - round; cbn [snd];
      try (exists 1%nat; split; [lia | reflexivity]).
    destruct (IH pid ep true timeout interval start
                (after_sleep (after_request w (status_request ep)
                                (took (api (length (calls w))))) interval))
      as (n & Hn & E).
    exists (S n). split; [lia|]. rewrite E. cbn. now rewrite <- app_assoc.
Qed.

(** With [wait_for_ready], the loop only returns a record whose status
    is "ready". *)
Lemma poll_returns_ready (fuel : nat) :
  forall pid ep timeout interval start w j,
    fst (poll api fuel pid ep true timeout interval start w) = Return j ->
    has_status j "ready".
Proof.
  induction fuel as [|fuel IH]; intros pid ep timeout interval start w j0;
    [discriminate|].
  round; cbn [fst]; try discriminate.
  - intros [= <-]. exists fields. split; [reflexivity|].
    unfold Py.get in Hs. destruct (Py.dict_get fields "status") as [x|];
      [|discriminate].
    destruct x; try discriminate. cbn in Hs.
    apply String.eqb_eq in Hs. now subst.
  - apply IH.
Qed.

(** A request that fails ends the loop with the very exception. *)
Lemma poll_fail (fuel : nat) :
  forall pid ep wait timeout interval start w k e,
    (length (calls w) <= k
     < length (calls (snd (poll api fuel pid ep wait timeout interval start w))))%nat ->
    reply_answer (api k) = Fail e ->
    fst (poll api fuel pid ep wait timeout interval start w) = Raise e.
Proof.
  induction fuel as [|fuel IH];
    intros pid ep wait timeout interval start w k e0; [cbn; intros; lia|].
  round; cbn [fst snd];
    try (rewrite after_request_length; intros Hk Hf;
         assert (k = length (calls w)) by lia; subst k; congruence).
  intros Hk Hf. apply IH with (k := k); [|exact Hf].
  split; [|apply Hk].
  destruct (Nat.eq_dec k (length (calls w))) as [->|N]; [congruence|].
  cbn [after_sleep calls]. rewrite after_request_length. lia.
Qed.

(** While every reply is a record that is not ready, the loop can only
    end at the deadline. *)
Lemma poll_pending (fuel : nat) :
  forall pid ep timeout interval start w,
    (forall n, pending (api n)) ->
    (0 <= interval)%Z ->
    let r := fst (poll api fuel pid ep true timeout interval start w) in
    r = Raise (timed_out pid timeout) \/ r = Diverge.
Proof.
  induction fuel as [|fuel IH]; intros pid ep timeout interval start w Hp Hi0;
    [now right|].
  cbv zeta.
  destruct (Hp (length (calls w))) as (d & Hd & Hnr).
  rewrite poll_round. cbv zeta. rewrite Hd. cbn [negb]. rewrite Hnr.
  destruct (Qgtb _ _); [now left|].
  destruct (interval <? 0)%Z eqn:Hi; [apply Z.ltb_lt in Hi; lia|].
  apply IH; assumption.
Qed.

(** The three ways a round with [wait_for_ready] goes on a record. *)
Lemma poll_round_ready fuel pid ep timeout interval start w d :
  reply_answer (api (length (calls w))) = Ok (JObj d) ->
  Py.eq_str (Py.get d "status") "ready" = true ->
  poll api (S fuel) pid ep true timeout interval start w
  = (Return (JObj d),
     after_request w (status_request ep) (took (api (length (calls w))))).
Proof. intros Hr Hs. rewrite poll_round. cbv zeta. now rewrite Hr, Hs. Qed.

Lemma poll_round_deadline fuel pid ep timeout interval start w d :
  reply_answer (api (length (calls w))) = Ok (JObj d) ->
  Py.eq_str (Py.get d "status") "ready" = false ->
  (inject_Z timeout < now w + took (api (length (calls w))) - start)%Q ->
  poll api (S fuel) pid ep true timeout interval start w
  = (Raise (timed_out pid timeout),
     after_request w (status_request ep) (took (api (length (calls w))))).
Proof.
  intros Hr Hs Ht. rewrite poll_round. cbv zeta. rewrite Hr, Hs.
  cbn [negb after_request now].
  apply Qgtb_true in Ht. now rewrite Ht.
Qed.

Lemma poll_round_again fuel pid ep timeout interval start w d :
  reply_answer (api (length (calls w))) = Ok (JObj d) ->
  Py.eq_str (Py.get d "status") "ready" = false ->
  (now w + took (api (length (calls w))) - start <= inject_Z timeout)%Q ->
  (0 <= interval)%Z ->
  poll api (S fuel) pid ep true timeout interval start w
  = poll api fuel pid ep true timeout interval start
      (after_sleep
         (after_request w (status_request ep) (took (api (length (calls w)))))
         interval).
Proof.
  intros Hr Hs Ht Hi. rewrite poll_round. cbv zeta. rewrite Hr, Hs.
  cbn [negb after_request now].
  apply Qgtb_false in Ht. rewrite Ht.
  destruct (Z.ltb_spec interval 0); [lia | reflexivity].
Qed.

Lemma status_is_ready d s :
  Py.dict_get d "status" = Some (JStr s) ->
  Py.eq_str (Py.get d "status") "ready" = String.eqb s "ready".
Proof. intros H. unfold Py.get. now rewrite H. Qed.

End Polling.

(** ** Coming to an end *)

Section Halting.

Variable api : remote.

Lemma halts_ret {A} (a : A) : halts (ret a).
Proof. intros w. discriminate. Qed.

Lemma halts_raise {A} (e : exn) : halts (@raise A e).
Proof. intros w. discriminate. Qed.

Lemma halts_bind {A B} (m : M A) (k : A -> M B) :
  halts m -> (forall a, halts (k a)) -> halts (bind m k).
Proof.
  intros Hm Hk w. rewrite bind_run. specialize (Hm w).
  destruct (m w) as [[a|e|] w']; cbn [fst] in *;
    [apply Hk | discriminate | congruence].
Qed.

Lemma halts_make_request (m ep : string) (d : option json) :
  halts (_make_request api m ep d).
Proof.
  intros w. rewrite make_request_run.
  destruct (reply_answer _); discriminate.
Qed.

Lemma halts_py_get (v : json) (key : string) : halts (py_get v key).
Proof. destruct v; cbn [py_get]; (apply halts_ret || apply halts_raise). Qed.

Lemma halts_py_getitem (v : json) (key : string) : halts (py_getitem v key).
Proof.
  destruct v; cbn [py_getitem]; try apply halts_raise.
  destruct (Py.dict_get _ _); (apply halts_ret || apply halts_raise).
Qed.

(** The deadlines and the interval the tools use: 62 rounds are enough
    for [timeout=600] (and for the default 300) at [poll_interval=10]. *)
Lemma halts_get_parsing_status (fuel : nat) (pid : json) (wait : bool)
    (timeout : Z) :
  (timeout <= 600)%Z ->
  halts (get_parsing_status api (62 + fuel) pid wait timeout default_poll_interval).
Proof.
  intros Ht w. rewrite get_parsing_status_run.
  apply poll_halts; [reflexivity | lia |].
  rewrite Nat2Z.inj_add, inject_Z_plus.
  pose proof (inject_nat_nonneg fuel) as F.
  assert (T : (inject_Z timeout <= 600)%Q)
    by (change 600%Q with (inject_Z 600); now rewrite <- Zle_Qle).
  change (inject_Z (Z.of_nat 62)) with 62%Q.
  change (inject_Z default_poll_interval) with 10%Q. lra.
Qed.

Lemma returns_halts {A} (m : M A) : returns m -> halts m.
Proof. intros H w. destruct (H w) as [a ->]. discriminate. Qed.

(** A [try] statement whose body comes to an end and whose last clause
    is [except Exception], every clause returning, always returns. *)
Lemma returns_try {A} (m : M A) (c : pyclass) (f g : exn -> A) :
  halts m ->
  returns (try_except m [ (c, fun e => ret (f e));
                          (Exception, fun e => ret (g e)) ]).
Proof.
  intros Hm w. unfold try_except. specialize (Hm w).
  destruct (m w) as [[a|e|] w']; cbn [fst] in *.
  - now exists a.
  - cbn [handle]. destruct (isinstance e c); cbn [isinstance ret fst].
    + now exists (f e).
    + now exists (g e).
  - congruence.
Qed.

End Halting.

Create HintDb halts.

#[local] Hint Resolve halts_ret halts_raise halts_make_request halts_py_get
  halts_py_getitem : halts.

#[local] Hint Extern 1 (halts (get_parsing_status _ _ _ _ _ _)) =>
  apply halts_get_parsing_status; unfold default_timeout; lia : halts.

(** Walk down a tool body: sequencing, branches, then the leaves. *)
Ltac halting :=
  repeat first
    [ solve [auto with halts]
    | match goal with
      | |- halts (if ?b then _ else _) => destruct b
      | |- halts (let _ := _ in _) => cbv zeta
      | |- halts (bind _ _) => apply halts_bind; [|intros ?]
      end ].

Section Tools.

Variable api : remote.

Lemma start_repo_parsing_returns (repo branch : string) :
  returns (start_repo_parsing api repo branch).
Proof.
  apply returns_try. unfold parse_repository. halting.
Qed.

Lemma check_repo_parsing_status_returns (fuel : nat) (pid : string) :
  returns (check_repo_parsing_status api (62 + fuel) pid).
Proof.
  apply returns_try. halting.
Qed.

Lemma ask_parsed_repo_returns (fuel : nat) (pid : json) (query : string) :
  returns (ask_parsed_repo api (62 + fuel) pid query).
Proof.
  apply returns_try. unfold create_conversation, send_message. halting.
Qed.

#[local] Hint Extern 1 (halts (ask_parsed_repo _ _ _ _)) =>
  apply returns_halts, ask_parsed_repo_returns : halts.

Lemma analyze_repository_returns (fuel : nat) (repo : string) :
  returns (analyze_repository api (62 + fuel) repo).
Proof.
  apply returns_try. unfold parse_repository. halting.
Qed.

Lemma get_repository_trends_returns (fuel : nat) (repo : string) :
  returns (get_repository_trends api (62 + fuel) repo).
Proof.
  apply returns_try. unfold parse_repository. halting.
Qed.

End Tools.

(** ** Runs of the tools *)

Section ToolRuns.

Variable api : remote.

(** An exception out of the wait for readiness becomes the string of
    the matching clause. *)
Lemma ask_parsed_repo_wait_raises fuel pid q w e w' :
  get_parsing_status api fuel pid true 600 default_poll_interval w
  = (Raise e, w') ->
  ask_parsed_repo api fuel pid q w = (Return (ask_failure e), w').
Proof.
  intros G. unfold ask_parsed_repo, try_except, bind. rewrite G.
  cbn [handle]. unfold ask_failure.
  destruct (isinstance e TimeoutError); reflexivity.
Qed.

(** The clauses of a tool, run on an exception. *)
Ltac handled :=
  cbn [handle];
  unfold ask_failure, parse_failure, status_failure, analyze_failure,
    trends_failure;
  cbn [isinstance];
  repeat match goal with
         | |- context [pyclass_eqb ?a ?b] => destruct (pyclass_eqb a b)
         end;
  reflexivity.

(** The rest of [ask_parsed_repo] once the wait returned a ready
    record: the conversation, then the message. *)
Lemma ask_parsed_repo_talks fuel pid q w d w1 :
  get_parsing_status api fuel pid true 600 default_poll_interval w
  = (Return (JObj d), w1) ->
  Py.dict_get d "status" = Some (JStr "ready") ->
  ask_parsed_repo api fuel pid q w =
  let r1 := api (length (calls w1)) in
  let w2 := after_request w1 (conversation_request pid) (took r1) in
  match reply_answer r1 with
  | Fail e => (Return (ask_failure e), w2)
  | Ok (JObj f) =>
      let cid := Py.get f "conversation_id" in
      if Py.truthy cid
      then
        let r2 := api (S (length (calls w1))) in
        let w3 := after_request w2 (message_request cid q) (took r2) in
        match reply_answer r2 with
        | Ok m => (Return (Py.str m), w3)
        | Fail e => (Return (ask_failure e), w3)
        end
      else (Return "Failed to create Potpie conversation.", w2)
  | Ok c => (Return (ask_failure (no_get c)), w2)
  end.
Proof.
  intros G St. unfold ask_parsed_repo, try_except, bind. rewrite G.
  cbn [py_get ret]. cbv beta iota zeta.
  replace (Py.get d "status") with (JStr "ready")
    by (unfold Py.get; now rewrite St).
  change (not_ready (JStr "ready")) with false. cbv beta iota.
  rewrite create_conversation_run.
  destruct (reply_answer (api (length (calls w1)))) as [c|e2];
    [|handled].
  destruct c; cbn [py_get ret raise]; try handled.
  destruct (Py.truthy (Py.get fields "conversation_id")); cbn [negb];
    [|reflexivity].
  rewrite send_message_run, after_request_length.
  destruct (reply_answer (api (S (length (calls w1))))) as [m|e3];
    [reflexivity | handled].
Qed.

(** If a request of a run of [ask_parsed_repo] fails, the run returns
    the string its handlers make of that exception. *)
Lemma ask_parsed_repo_fail fuel pid q w k e :
  (length (calls w) <= k
   < length (calls (snd (ask_parsed_repo api fuel pid q w))))%nat ->
  reply_answer (api k) = Fail e ->
  fst (ask_parsed_repo api fuel pid q w) = Return (ask_failure e).
Proof.
  pose proof (poll_fail api fuel pid (status_endpoint pid) true 600
                default_poll_interval (now w) w k e) as PF.
  pose proof (poll_returns_ready api fuel pid (status_endpoint pid) 600
                default_poll_interval (now w) w) as PR.
  rewrite <- get_parsing_status_run in PF, PR.
  destruct (get_parsing_status api fuel pid true 600 default_poll_interval w)
    as [[j|e1|] w1] eqn:G; cbn [fst snd] in PF, PR.
  - (* the wait returned: its requests were answered *)
    destruct (PR j eq_refl) as (d & -> & St). clear PR.
    rewrite (ask_parsed_repo_talks _ _ _ _ _ _ G St). cbv zeta.
    assert (K : forall n,
               (length (calls w) <= k < n + length (calls w1))%nat ->
               reply_answer (api k) = Fail e ->
               exists i, (i < n)%nat /\ k = (i + length (calls w1))%nat).
    { intros n Hk Hf. destruct (Nat.lt_ge_cases k (length (calls w1))) as [L|L].
      - specialize (PF (conj (proj1 Hk) L) Hf). discriminate.
      - exists (k - length (calls w1))%nat. lia. }
    destruct (reply_answer (api (length (calls w1)))) as [c|e2] eqn:R1.
    + destruct c; cbn [fst snd];
        try (rewrite after_request_length; intros Hk Hf;
             destruct (K 1%nat Hk Hf) as (i & Hi & ->);
             replace i with 0%nat in Hf by lia; cbn [Nat.add] in Hf;
             congruence).
      destruct (Py.truthy (Py.get fields "conversation_id")); cbn [fst snd].
      * destruct (reply_answer (api (S (length (calls w1))))) as [m|e3] eqn:R2;
          cbn [fst snd]; rewrite !after_request_length; intros Hk Hf;
          destruct (K 2%nat Hk Hf) as (i & Hi & ->);
          destruct i as [|[|i]]; cbn [Nat.add] in Hf; try lia; congruence.
      * rewrite after_request_length; intros Hk Hf.
        destruct (K 1%nat Hk Hf) as (i & Hi & ->).
        replace i with 0%nat in Hf by lia. cbn [Nat.add] in Hf. congruence.
    + cbn [fst snd]. rewrite after_request_length. intros Hk Hf.
      destruct (K 1%nat Hk Hf) as (i & Hi & ->).
      replace i with 0%nat in Hf by lia. cbn [Nat.add] in Hf. congruence.
  - rewrite (ask_parsed_repo_wait_raises _ _ _ _ _ _ G). cbn [fst snd].
    intros Hk Hf. specialize (PF Hk Hf). congruence.
  - unfold ask_parsed_repo, try_except, bind. rewrite G. cbn [fst snd].
    intros Hk Hf. specialize (PF Hk Hf). discriminate.
Qed.

(** [start_repo_parsing], spelled out on the world. *)
Lemma start_repo_parsing_run repo branch w :
  start_repo_parsing api repo branch w =
  if String.eqb repo "" || negb (str_in "/" repo)
  then (Return invalid_repo_name, w)
  else
    let r := api (length (calls w)) in
    let w1 := after_request w (parse_request repo branch) (took r) in
    match reply_answer r with
    | Fail e => (Return (parse_failure e), w1)
    | Ok (JObj f) =>
        match Py.dict_get f "project_id" with
        | Some project_id =>
            (Return ("Successfully started parsing repository " ++ repo
                     ++ newline ++ "Project ID: " ++ Py.str project_id
                     ++ newline ++ "Status: Parsing initiated"), w1)
        | None =>
            (Return "Failed to parse repository: Invalid API response format",
             w1)
        end
    | Ok _ =>
        (Return "Failed to parse repository: Invalid API response format", w1)
    end.
Proof.
  unfold start_repo_parsing, try_except.
  destruct (String.eqb repo "" || negb (str_in "/" repo)); [reflexivity|].
  rewrite bind_run, parse_repository_run. cbv zeta.
  destruct (reply_answer (api (length (calls w)))) as [j|e]; [|handled].
  destruct j; try reflexivity.
  cbn [Py.is_dict py_has_key andb py_getitem].
  destruct (Py.dict_get fields "project_id"); reflexivity.
Qed.

(** [check_repo_parsing_status], spelled out on the world. *)
Lemma check_repo_parsing_status_run fuel pid w :
  check_repo_parsing_status api (S fuel) pid w =
  if String.eqb pid ""
  then (Return "Invalid project_id: Project ID cannot be empty", w)
  else
    let r := api (length (calls w)) in
    let w1 := after_request w (status_request (status_endpoint (JStr pid)))
                (took r) in
    match reply_answer r with
    | Fail e => (Return (status_failure e), w1)
    | Ok (JObj f) =>
        if Py.truthy (Py.get f "status")
        then (Return ("Current parsing status: " ++ Py.str (Py.get f "status")),
              w1)
        else (Return "Failed to get parsing status: Invalid response format",
              w1)
    | Ok _ =>
        (Return "Failed to get parsing status: Invalid API response type", w1)
    end.
Proof.
  unfold check_repo_parsing_status, try_except.
  destruct (String.eqb pid ""); [reflexivity|].
  rewrite bind_run, get_parsing_status_run, poll_round. cbv zeta.
  destruct (reply_answer (api (length (calls w)))) as [j|e]; [|handled].
  cbn [negb]. destruct j; try reflexivity.
  cbn [Py.is_dict]. rewrite bind_run. cbn [py_get ret].
  destruct (Py.truthy (Py.get fields "status")); reflexivity.
Qed.

(** [analyze_repository], up to the call of [ask_parsed_repo]. *)
Lemma analyze_repository_run fuel repo w :
  analyze_repository api fuel repo w =
  let r := api (length (calls w)) in
  let w1 := after_request w (parse_request repo "main") (took r) in
  match reply_answer r with
  | Fail e => (Return (analyze_failure e), w1)
  | Ok (JObj f) =>
      let project_id := Py.get f "project_id" in
      if Py.truthy project_id
      then
        match ask_parsed_repo api fuel project_id analysis_query w1 with
        | (Return s, w2) =>
            (Return (if startswith s "Failed" then s
                     else "Analysis of repository " ++ repo ++ ": " ++ s), w2)
        | (Raise e, w2) => (Return (analyze_failure e), w2)
        | (Diverge, w2) => (Diverge, w2)
        end
      else (Return (no_project_id repo (JObj f)), w1)
  | Ok p => (Return (analyze_failure (no_get p)), w1)
  end.
Proof.
  unfold analyze_repository, try_except.
  rewrite bind_run, parse_repository_run. cbv zeta.
  destruct (reply_answer (api (length (calls w)))) as [j|e]; [|handled].
  rewrite bind_run.
  destruct j; cbn [py_get ret raise]; try handled.
  destruct (Py.truthy (Py.get fields "project_id")); cbn [negb];
    [|reflexivity].
  rewrite bind_run.
  destruct (ask_parsed_repo api fuel _ analysis_query _) as [[s|e|] w2];
    [ | handled | reflexivity ].
  destruct (startswith s "Failed"); reflexivity.
Qed.

(** [get_repository_trends], up to the call of [ask_parsed_repo]. *)
Lemma get_repository_trends_run fuel repo w :
  get_repository_trends api fuel repo w =
  let r := api (length (calls w)) in
  let w1 := after_request w (parse_request repo "main") (took r) in
  match reply_answer r with
  | Fail e => (Return (trends_failure e), w1)
  | Ok (JObj f) =>
      let project_id := Py.get f "project_id" in
      if Py.truthy project_id
      then
        match ask_parsed_repo api fuel project_id trends_query w1 with
        | (Return s, w2) =>
            (Return ("Potpie trends raw response for " ++ repo ++ ": " ++ s),
             w2)
        | (Raise e, w2) => (Return (trends_failure e), w2)
        | (Diverge, w2) => (Diverge, w2)
        end
      else (Return (no_project_id repo (JObj f)), w1)
  | Ok p => (Return (trends_failure (no_get p)), w1)
  end.
Proof.
  unfold get_repository_trends, try_except.
  rewrite bind_run, parse_repository_run. cbv zeta.
  destruct (reply_answer (api (length (calls w)))) as [j|e]; [|handled].
  rewrite bind_run.
  destruct j; cbn [py_get ret raise]; try handled.
  destruct (Py.truthy (Py.get fields "project_id")); cbn [negb];
    [|reflexivity].
  rewrite bind_run.
  destruct (ask_parsed_repo api fuel _ trends_query _) as [[s|e|] w2];
    [ reflexivity | handled | reflexivity ].
Qed.

(** The validation of [start_repo_parsing] lets through exactly the
    names in which the separator occurs. *)
Lemma rejected_iff_no_separator repo :
  String.eqb repo "" || negb (str_in "/" repo)
  = Nat.eqb (count_char separator repo) 0.
Proof.
  destruct (Nat.eqb_spec (count_char separator repo) 0) as [Z|NZ].
  - destruct (str_in "/" repo) eqn:I; [|apply orb_true_r].
    apply (str_in_char separator), count_char_pos in I. lia.
  - assert (I : str_in "/" repo = true).
    { apply (str_in_char separator), count_char_pos. lia. }
    rewrite I. destruct repo; [now elim NZ | reflexivity].
Qed.

Lemma start_repo_parsing_calls repo branch w :
  calls (snd (start_repo_parsing api repo branch w))
  = if Nat.eqb (count_char separator repo) 0 then calls w
    else (calls w ++ [parse_request repo branch])%list.
Proof.
  rewrite start_repo_parsing_run, rejected_iff_no_separator.
  destruct (Nat.eqb (count_char separator repo) 0); [reflexivity|].
  cbv zeta. destruct (reply_answer _) as [j|e]; [|reflexivity].
  destruct j; try reflexivity.
  destruct (Py.dict_get fields "project_id"); reflexivity.
Qed.

(** A failed request of [analyze_repository] or [get_repository_trends]
    shows in the string returned: its message comes after the text of
    the handler that caught it. *)
Lemma analyze_repository_fail fuel repo w k e :
  (length (calls w) <= k
   < length (calls (snd (analyze_repository api fuel repo w))))%nat ->
  reply_answer (api k) = Fail e ->
  exn_class e = RequestException ->
  fst (analyze_repository api fuel repo w)
  = Return ("Failed to analyze repository: " ++ exn_msg e) \/
  fst (analyze_repository api fuel repo w)
  = Return ("Failed to query repository: " ++ exn_msg e).
Proof.
  rewrite analyze_repository_run. cbv zeta. intros Hk Hf Hc.
  assert (A : ask_failure e = "Failed to query repository: " ++ exn_msg e).
  { unfold ask_failure. cbn [isinstance]. now rewrite Hc. }
  destruct (reply_answer (api (length (calls w)))) as [j|e1] eqn:R0.
  - assert (K : forall w',
               (k < length (calls w'))%nat ->
               (length (calls (after_request w (parse_request repo "main")
                                 (took (api (length (calls w)))))) <= k
                < length (calls w'))%nat).
    { intros w' L. rewrite after_request_length. split; [|exact L].
      destruct (Nat.eq_dec k (length (calls w))) as [->|N]; [congruence|lia]. }
    destruct j; cbn [fst snd] in Hk |- *;
      try (rewrite after_request_length in Hk;
           assert (k = length (calls w)) by lia; subst k; congruence).
    destruct (Py.truthy (Py.get fields "project_id"));
      [| cbn [fst snd] in Hk; rewrite after_request_length in Hk;
         assert (k = length (calls w)) by lia; subst k; congruence ].
    pose proof (ask_parsed_repo_fail fuel (Py.get fields "project_id")
                  analysis_query
                  (after_request w (parse_request repo "main")
                     (took (api (length (calls w))))) k e) as AF.
    destruct (ask_parsed_repo api fuel _ analysis_query _) as [[s|e2|] w2];
      cbn [fst snd] in Hk, AF |- *;
      specialize (AF (K _ (proj2 Hk)) Hf); try discriminate.
    injection AF as ->. rewrite A. right.
    replace (startswith ("Failed to query repository: " ++ exn_msg e) "Failed")
      with true by reflexivity.
    reflexivity.
  - cbn [fst snd] in Hk |- *. rewrite after_request_length in Hk.
    assert (k = length (calls w)) by lia. subst k.
    rewrite Hf in R0. injection R0 as <-. left.
    unfold analyze_failure. cbn [isinstance]. now rewrite Hc.
Qed.

Lemma get_repository_trends_fail fuel repo w k e :
  (length (calls w) <= k
   < length (calls (snd (get_repository_trends api fuel repo w))))%nat ->
  reply_answer (api k) = Fail e ->
  exn_class e = RequestException ->
  fst (get_repository_trends api fuel repo w)
  = Return ("Failed to get repository trends: " ++ exn_msg e) \/
  fst (get_repository_trends api fuel repo w)
  = Return ("Potpie trends raw response for " ++ repo ++ ": "
            ++ "Failed to query repository: " ++ exn_msg e).
Proof.
  rewrite get_repository_trends_run. cbv zeta. intros Hk Hf Hc.
  assert (A : ask_failure e = "Failed to query repository: " ++ exn_msg e).
  { unfold ask_failure. cbn [isinstance]. now rewrite Hc. }
  destruct (reply_answer (api (length (calls w)))) as [j|e1] eqn:R0.
  - assert (K : forall w',
               (k < length (calls w'))%nat ->
               (length (calls (after_request w (parse_request repo "main")
                                 (took (api (length (calls w)))))) <= k
                < length (calls w'))%nat).
    { intros w' L. rewrite after_request_length. split; [|exact L].
      destruct (Nat.eq_dec k (length (calls w))) as [->|N]; [congruence|lia]. }
    destruct j; cbn [fst snd] in Hk |- *;
      try (rewrite after_request_length in Hk;
           assert (k = length (calls w)) by lia; subst k; congruence).
    destruct (Py.truthy (Py.get fields "project_id"));
      [| cbn [fst snd] in Hk; rewrite after_request_length in Hk;
         assert (k = length (calls w)) by lia; subst k; congruence ].
    pose proof (ask_parsed_repo_fail fuel (Py.get fields "project_id")
                  trends_query
                  (after_request w (parse_request repo "main")
                     (took (api (length (calls w))))) k e) as AF.
    destruct (ask_parsed_repo api fuel _ trends_query _) as [[s|e2|] w2];
      cbn [fst snd] in Hk, AF |- *;
      specialize (AF (K _ (proj2 Hk)) Hf); try discriminate.
    injection AF as ->. rewrite A. now right.
  - cbn [fst snd] in Hk |- *. rewrite after_request_length in Hk.
    assert (k = length (calls w)) by lia. subst k.
    rewrite Hf in R0. injection R0 as <-. left.
    unfold trends_failure. cbn [isinstance]. now rewrite Hc.
Qed.

End ToolRuns.

(** ** The claims *)

(** C1.  Each of the five tool functions ([start_repo_parsing],
    [check_repo_parsing_status], [ask_parsed_repo], [analyze_repository],
    [get_repository_trends]) returns a string, for every argument, every
    script of the remote API (documents of any shape, exceptions of any
    class, any delays) and every starting clock: the run comes to an end,
    and it ends with [Return], never with an exception.  62 rounds of
    polling are always enough, so any fuel from 62 up gives the result. *)
Theorem tools_return_a_string (api : remote) (fuel : nat) :
  (forall repo_name branch_name,
      returns (start_repo_parsing api repo_name branch_name)) /\
  (forall project_id,
      returns (check_repo_parsing_status api (62 + fuel) project_id)) /\
  (forall project_id query,
      returns (ask_parsed_repo api (62 + fuel) (JStr project_id) query)) /\
  (forall repo_name, returns (analyze_repository api (62 + fuel) repo_name)) /\
  (forall repo_name, returns (get_repository_trends api (62 + fuel) repo_name)).
Proof.
  repeat split; intros.
  - apply start_repo_parsing_returns.
  - apply check_repo_parsing_status_returns.
  - apply ask_parsed_repo_returns.
  - apply analyze_repository_returns.
  - apply get_repository_trends_returns.
Qed.

(** C2.  When the remote API answers the first three requests with
    [{"status": "ready"}], [{"conversation_id": "c1"}] and
    [{"message": "42"}], [ask_parsed_repo(project_id, query)] issues
    exactly three requests, in the order get-parsing-status,
    create-conversation, send-message, and returns a string that contains
    "42". *)
Theorem ask_parsed_repo_ready (api : remote) (fuel : nat) (project_id : json)
    (query : string) (t0 : Q) :
  reply_answer (api 0) = Ok (status_record "ready") ->
  reply_answer (api 1) = Ok (JObj [("conversation_id", JStr "c1")]) ->
  reply_answer (api 2) = Ok (JObj [("message", JStr "42")]) ->
  exists s w',
    ask_parsed_repo api (S fuel) project_id query (boot t0) = (Return s, w') /\
    str_in "42" s = true /\
    calls w' = [ status_request (status_endpoint project_id);
                 conversation_request project_id;
                 message_request (JStr "c1") query ].
Proof.
  intros H0 H1 H2.
  exists "{'message': '42'}".
  eexists. split; [|split; [reflexivity|]].
  - unfold ask_parsed_repo, try_except, bind.
    rewrite get_parsing_status_run, poll_round. cbv zeta.
    cbn [boot calls length]. rewrite H0. unfold status_record. cbn [negb].
    change (Py.eq_str (Py.get [("status", JStr "ready")] "status") "ready")
      with true.
    cbv beta iota. cbn [py_get ret]. cbv beta iota.
    change (not_ready (Py.get [("status", JStr "ready")] "status")) with false.
    cbv beta iota.
    rewrite create_conversation_run, after_request_length.
    cbn [boot calls length]. rewrite H1. cbv beta iota.
    cbn [py_get ret]. cbv beta iota.
    change (Py.get [("conversation_id", JStr "c1")] "conversation_id")
      with (JStr "c1").
    cbn [Py.truthy String.eqb negb]. cbv beta iota.
    rewrite send_message_run, !after_request_length.
    cbn [boot calls length]. rewrite H2. reflexivity.
  - reflexivity.
Qed.

Lemma ask_parsed_repo_ready_witness :
  reply_answer (ready_script 0) = Ok (status_record "ready") /\
  exists s w',
    ask_parsed_repo ready_script 1 (JStr "p1") "How many?" (boot 0)
    = (Return s, w') /\
    str_in "42" s = true /\
    calls w' = [ status_request (status_endpoint (JStr "p1"));
                 conversation_request (JStr "p1");
                 message_request (JStr "c1") "How many?" ].
Proof.
  split; [reflexivity|].
  apply (ask_parsed_repo_ready ready_script 0 (JStr "p1") "How many?" 0);
    reflexivity.
Defined.

(** C3.  When the first three status fetches return records with status
    "queued", "queued", "ready", [poll_interval] is 0 and the 300-second
    deadline has not passed at the first two checks, then
    [get_parsing_status] with [wait_for_ready] makes exactly three fetches
    and returns the third record, the one whose status is "ready". *)
Theorem get_parsing_status_three_fetches (api : remote) (fuel : nat)
    (project_id : json) (t0 : Q) (r0 r1 r2 : json) :
  reply_answer (api 0) = Ok r0 -> has_status r0 "queued" ->
  reply_answer (api 1) = Ok r1 -> has_status r1 "queued" ->
  reply_answer (api 2) = Ok r2 -> has_status r2 "ready" ->
  (took (api 0%nat) <= 300)%Q ->
  (took (api 0%nat) + took (api 1%nat) <= 300)%Q ->
  exists w',
    get_parsing_status api (3 + fuel) project_id true 300 0 (boot t0)
    = (Return r2, w') /\
    calls w' = repeat (status_request (status_endpoint project_id)) 3.
Proof.
  intros H0 (d0 & -> & S0) H1 (d1 & -> & S1) H2 (d2 & -> & S2) T0 T1.
  eexists. split.
  - rewrite get_parsing_status_run. cbn [Nat.add].
    rewrite poll_round_again with (d := d0);
      [ | exact H0 | now rewrite (status_is_ready _ _ S0)
        | cbn [boot now calls length]; change (inject_Z 300) with 300%Q; lra
        | lia ].
    rewrite poll_round_again with (d := d1);
      [ | exact H1 | now rewrite (status_is_ready _ _ S1)
        | cbn [boot now calls length app after_sleep after_request];
          change (inject_Z 300) with 300%Q; change (inject_Z 0) with 0%Q; lra
        | lia ].
    rewrite poll_round_ready with (d := d2);
      [ reflexivity | exact H2 | now rewrite (status_is_ready _ _ S2) ].
  - reflexivity.
Qed.

Lemma get_parsing_status_three_fetches_witness :
  has_status (status_record "queued") "queued" /\
  exists w',
    get_parsing_status queued_twice 3 (JStr "p1") true 300 0 (boot 0)
    = (Return (status_record "ready"), w') /\
    calls w' = repeat (status_request (status_endpoint (JStr "p1"))) 3.
Proof.
  assert (Q : has_status (status_record "queued") "queued")
    by (eexists; split; reflexivity).
  split; [exact Q|].
  apply (get_parsing_status_three_fetches queued_twice 0 (JStr "p1") 0
           (status_record "queued") (status_record "queued")
           (status_record "ready"));
    try reflexivity; try exact Q.
  - eexists; split; reflexivity.
  - unfold Qle; simpl; lia.
  - unfold Qle; simpl; lia.
Defined.

(** C4, as amended.  With [timeout = 0], when the first status fetch
    returns a record with status "queued" and the clock has moved during
    that fetch (the reading after it is later than the start reading),
    [get_parsing_status] with [wait_for_ready] raises its [TimeoutError] at
    the first check, after exactly one fetch.  The test of the source is
    [time.time() - start_time > timeout], so a clock that reads the same
    on both sides of the fetch does not pass it. *)
Theorem zero_timeout_first_check (api : remote) (fuel : nat) (project_id : json)
    (interval : Z) (t0 : Q) (r0 : json) :
  reply_answer (api 0) = Ok r0 -> has_status r0 "queued" ->
  (0 < took (api 0%nat))%Q ->
  exists w',
    get_parsing_status api (S fuel) project_id true 0 interval (boot t0)
    = (Raise (timed_out project_id 0), w') /\
    calls w' = [status_request (status_endpoint project_id)].
Proof.
  intros H0 (d0 & -> & S0) T0.
  eexists. split.
  - rewrite get_parsing_status_run.
    apply poll_round_deadline with (d := d0);
      [ exact H0 | now rewrite (status_is_ready _ _ S0)
      | cbn [boot now calls length]; change (inject_Z 0) with 0%Q; lra ].
  - reflexivity.
Qed.

Lemma zero_timeout_first_check_witness :
  (0 < took (slow_queue 0%nat))%Q /\
  exists w',
    get_parsing_status slow_queue 1 (JStr "p1") true 0 10 (boot 0)
    = (Raise (timed_out (JStr "p1") 0), w') /\
    calls w' = [status_request (status_endpoint (JStr "p1"))].
Proof.
  split; [reflexivity|].
  apply (zero_timeout_first_check slow_queue 0 (JStr "p1") 10 0
           (status_record "queued")).
  - reflexivity.
  - eexists; split; reflexivity.
  - reflexivity.
Defined.

(** On [frozen_queue] with [poll_interval = 0] the clock stays at the
    start time, and no round ends the loop. *)
Lemma frozen_queue_never_ends (fuel : nat) :
  forall w, (now w <= 0)%Q ->
    fst (poll frozen_queue fuel (JStr "p1") (status_endpoint (JStr "p1"))
           true 0 0 0%Q w) = Diverge.
Proof.
  induction fuel as [|fuel IH]; intros w Hw; [reflexivity|].
  rewrite poll_round_again with (d := [("status", JStr "queued")]);
    [ | reflexivity | reflexivity
      | cbn [frozen_queue took]; change (inject_Z 0) with 0%Q; lra | lia ].
  apply IH. cbn [after_sleep after_request now frozen_queue took].
  change (inject_Z 0) with 0%Q. lra.
Qed.

(** C4 as stated fails when the clock does not move during the fetch.
    Every fetch of [frozen_queue] returns "queued" and [timeout] is 0, yet
    the first check lets the loop go on: with [poll_interval = 0] the loop
    never ends, whatever the fuel, and with the default [poll_interval] of
    10 the [TimeoutError] comes at the second check, after two fetches. *)
Lemma zero_timeout_frozen_clock :
  (forall n, reply_answer (frozen_queue n) = Ok (status_record "queued")) /\
  (forall fuel,
      fst (get_parsing_status frozen_queue fuel (JStr "p1") true 0 0 (boot 0))
      = Diverge) /\
  (exists w',
      get_parsing_status frozen_queue 2 (JStr "p1") true 0 10 (boot 0)
      = (Raise (timed_out (JStr "p1") 0), w') /\
      length (calls w') = 2).
Proof.
  split; [reflexivity|]. split.
  - intros fuel. rewrite get_parsing_status_run.
    apply frozen_queue_never_ends. cbn [boot now]. lra.
  - eexists. split; reflexivity.
Qed.

(** C5.  When the status of the project never reaches "ready" (every
    reply is a record whose status is something else), [ask_parsed_repo]
    waits until its 600-second deadline and returns a string that starts
    with "Timeout waiting for repository parsing to complete: "; every
    request it issued is a status fetch, so there is no create-conversation
    call and no send-message call. *)
Theorem ask_parsed_repo_never_ready (api : remote) (fuel : nat)
    (project_id : json) (query : string) (t0 : Q) :
  (forall n, pending (api n)) ->
  exists s w' n,
    ask_parsed_repo api (62 + fuel) project_id query (boot t0) = (Return s, w') /\
    startswith s "Timeout waiting for repository parsing to complete: " = true /\
    calls w' = repeat (status_request (status_endpoint project_id)) n.
Proof.
  intros Hp.
  assert (I : (0 <= default_poll_interval)%Z) by (unfold default_poll_interval; lia).
  pose proof (poll_pending api (62 + fuel) project_id (status_endpoint project_id)
                600 default_poll_interval (now (boot t0)) (boot t0) Hp I) as P.
  pose proof (halts_get_parsing_status api fuel project_id true 600
                (Z.le_refl 600) (boot t0)) as H.
  destruct (poll_calls api (62 + fuel) project_id (status_endpoint project_id)
              true 600 default_poll_interval (now (boot t0)) (boot t0))
    as (n & _ & C).
  cbv zeta in P.
  rewrite <- get_parsing_status_run in P, C.
  destruct (get_parsing_status api (62 + fuel) project_id true 600
              default_poll_interval (boot t0)) as [r w'] eqn:G.
  cbn [fst snd] in P, H, C.
  destruct P as [-> | ->].
  - exists (ask_failure (timed_out project_id 600)), w', n.
    split; [now apply ask_parsed_repo_wait_raises|].
    split; [reflexivity | exact C].
  - now elim H.
Qed.

Lemma ask_parsed_repo_never_ready_witness :
  (forall n, pending (frozen_queue n)) /\
  exists s w' n,
    ask_parsed_repo frozen_queue 62 (JStr "p1") "How many?" (boot 0)
    = (Return s, w') /\
    startswith s "Timeout waiting for repository parsing to complete: " = true /\
    calls w' = repeat (status_request (status_endpoint (JStr "p1"))) n.
Proof.
  assert (P : forall n, pending (frozen_queue n))
    by (intros n; eexists; split; reflexivity).
  split; [exact P|].
  exact (ask_parsed_repo_never_ready frozen_queue 0 (JStr "p1") "How many?" 0 P).
Defined.

(** C6, as amended.  When a request of a tool run fails with a network
    error [e] (a [RequestException]), the tool returns a string in which
    [str(e)] occurs word for word.  [start_repo_parsing] and
    [check_repo_parsing_status] have an [except RequestException] clause
    and put the marker "Network error - " right before it.  The other
    three tools catch it with [except Exception] and put their own text
    before it: "Failed to query repository: ", "Failed to analyze
    repository: " or "Failed to get repository trends: ". *)
Theorem network_error_surfaces (api : remote) (fuel : nat) (t0 : Q)
    (k : nat) (e : exn) :
  reply_answer (api k) = Fail e ->
  exn_class e = RequestException ->
  (forall repo_name branch_name,
      let run := start_repo_parsing api repo_name branch_name (boot t0) in
      k < length (calls (snd run)) ->
      carries run ("Network error - " ++ exn_msg e)) /\
  (forall project_id,
      let run := check_repo_parsing_status api fuel project_id (boot t0) in
      k < length (calls (snd run)) ->
      carries run ("Network error - " ++ exn_msg e)) /\
  (forall project_id query,
      let run := ask_parsed_repo api fuel project_id query (boot t0) in
      k < length (calls (snd run)) ->
      fst run = Return ("Failed to query repository: " ++ exn_msg e) /\
      carries run (exn_msg e)) /\
  (forall repo_name,
      let run := analyze_repository api fuel repo_name (boot t0) in
      k < length (calls (snd run)) ->
      carries run (exn_msg e)) /\
  (forall repo_name,
      let run := get_repository_trends api fuel repo_name (boot t0) in
      k < length (calls (snd run)) ->
      carries run (exn_msg e)).
Proof.
  intros Hf Hc.
  assert (A : ask_failure e = "Failed to query repository: " ++ exn_msg e).
  { unfold ask_failure. cbn [isinstance]. now rewrite Hc. }
  split; [|split; [|split; [|split]]].
  - (* start_repo_parsing *)
    intros repo_name branch_name run Hk. subst run. rewrite start_repo_parsing_run in Hk |- *.
    destruct (String.eqb repo_name "" || negb (str_in "/" repo_name));
      [cbn in Hk; lia|].
    cbv zeta in Hk |- *. cbn [boot calls length] in Hk |- *.
    destruct (reply_answer (api 0)) as [j|e0] eqn:R0.
    + assert (k = 0) by
        (destruct j; try destruct (Py.dict_get _ _); cbn in Hk; lia).
      subst k. congruence.
    + cbn in Hk. assert (k = 0) by lia. subst k.
      rewrite Hf in R0. injection R0 as <-.
      eexists. split; [reflexivity|].
      unfold parse_failure. cbn [isinstance]. rewrite Hc. cbn [pyclass_eqb].
      exact (str_in_end "Failed to parse repository: "
               ("Network error - " ++ exn_msg e)).
  - (* check_repo_parsing_status *)
    intros project_id run Hk. subst run. destruct fuel as [|fuel'].
    + unfold check_repo_parsing_status, try_except in Hk.
      destruct (String.eqb project_id ""); cbn in Hk; lia.
    + rewrite check_repo_parsing_status_run in Hk |- *.
      destruct (String.eqb project_id ""); [cbn in Hk; lia|].
      cbv zeta in Hk |- *. cbn [boot calls length] in Hk |- *.
      destruct (reply_answer (api 0)) as [j|e0] eqn:R0.
      * assert (k = 0) by
          (destruct j; try destruct (Py.truthy _); cbn in Hk; lia).
        subst k. congruence.
      * cbn in Hk. assert (k = 0) by lia. subst k.
        rewrite Hf in R0. injection R0 as <-.
        eexists. split; [reflexivity|].
        unfold status_failure. cbn [isinstance]. rewrite Hc. cbn [pyclass_eqb].
        exact (str_in_end "Failed to get parsing status: "
                 ("Network error - " ++ exn_msg e)).
  - (* ask_parsed_repo *)
    intros project_id query run Hk. subst run.
    assert (E : fst (ask_parsed_repo api fuel project_id query (boot t0))
                = Return (ask_failure e)).
    { apply ask_parsed_repo_fail with (k := k);
        [cbn [boot calls length]; lia | exact Hf]. }
    rewrite A in E. split; [exact E|].
    eexists. split; [exact E | apply str_in_end].
  - (* analyze_repository *)
    intros repo_name run Hk. subst run.
    destruct (analyze_repository_fail api fuel repo_name (boot t0) k e)
      as [E|E]; [cbn [boot calls length]; lia | exact Hf | exact Hc | |];
      eexists; (split; [exact E | apply str_in_end]).
  - (* get_repository_trends *)
    intros repo_name run Hk. subst run.
    destruct (get_repository_trends_fail api fuel repo_name (boot t0) k e)
      as [E|E]; [cbn [boot calls length]; lia | exact Hf | exact Hc | |];
      eexists; (split; [exact E|]).
    + apply str_in_end.
    + do 3 apply str_in_app_r. apply str_in_end.
Qed.

Lemma network_error_surfaces_witness :
  reply_answer (network_down 0) = Fail boom /\
  exn_class boom = RequestException /\
  carries (start_repo_parsing network_down "owner/repo" "main" (boot 0))
          "Network error - boom" /\
  carries (get_repository_trends network_down 62 "owner/repo" (boot 0)) "boom".
Proof.
  destruct (network_error_surfaces network_down 62 0 0 boom eq_refl eq_refl)
    as (S1 & _ & _ & _ & S5).
  split; [reflexivity|]. split; [reflexivity|]. split.
  - apply (S1 "owner/repo" "main"). cbn. lia.
  - apply (S5 "owner/repo"). cbn. lia.
Defined.

(** C6 as stated fails for three of the five tools.  When the network is
    down, [ask_parsed_repo], [analyze_repository] and
    [get_repository_trends] return the text of their [except Exception]
    clause followed by [str(e)]; the marker "Network error - " is not in
    it. *)
Lemma network_marker_missing :
  reply_answer (network_down 0) = Fail boom /\
  exn_class boom = RequestException /\
  fst (ask_parsed_repo network_down 62 (JStr "p1") "How many?" (boot 0))
  = Return "Failed to query repository: boom" /\
  str_in "Network error - " "Failed to query repository: boom" = false /\
  fst (analyze_repository network_down 62 "owner/repo" (boot 0))
  = Return "Failed to analyze repository: boom" /\
  str_in "Network error - " "Failed to analyze repository: boom" = false /\
  fst (get_repository_trends network_down 62 "owner/repo" (boot 0))
  = Return "Failed to get repository trends: boom" /\
  str_in "Network error - " "Failed to get repository trends: boom" = false.
Proof. repeat split; reflexivity. Qed.

(** C7, as amended.  [start_repo_parsing] goes on to the remote parse call
    exactly when the repository identifier contains at least one separator
    "/" (the test of the source is ['/' not in repo_name]; it does not
    count the separators nor look at what they divide); an identifier
    with no separator is rejected before any request. *)
Theorem start_repo_parsing_accepts_iff (api : remote)
    (repo_name branch_name : string) (w : world) :
  let run := start_repo_parsing api repo_name branch_name w in
  (1 <= count_char separator repo_name <->
   calls (snd run) = (calls w ++ [parse_request repo_name branch_name])%list) /\
  (count_char separator repo_name = 0 <-> calls (snd run) = calls w).
Proof.
  cbv zeta. rewrite start_repo_parsing_calls.
  destruct (Nat.eqb_spec (count_char separator repo_name) 0) as [Z|NZ].
  - split; split; intros H; try lia; try reflexivity.
    apply (f_equal (@length request)) in H. rewrite length_app in H.
    cbn in H. lia.
  - split; split; intros H; try lia; try reflexivity.
    apply (f_equal (@length request)) in H. rewrite length_app in H.
    cbn in H. lia.
Qed.

(** C7 as stated fails: an identifier with two separators passes the
    validation, and the parse request is issued for it. *)
Lemma two_separators_accepted :
  count_char separator "a/b/c" = 2 /\
  exists s w',
    start_repo_parsing parse_ok "a/b/c" "main" (boot 0) = (Return s, w') /\
    startswith s "Successfully started parsing repository a/b/c" = true /\
    calls w' = [parse_request "a/b/c" "main"].
Proof.
  split; [reflexivity|]. eexists. eexists.
  split; [reflexivity|]. split; reflexivity.
Qed.

(** C8.  For every [repo_name] in which the separator "/" does not occur,
    [start_repo_parsing] returns the validation-failure string "Invalid
    repository name format. Expected format: 'owner/repo'" and leaves the
    world as it was: no request is issued. *)
Theorem start_repo_parsing_no_separator (api : remote)
    (repo_name branch_name : string) (w : world) :
  count_char separator repo_name = 0 ->
  start_repo_parsing api repo_name branch_name w = (Return invalid_repo_name, w) /\
  calls (snd (start_repo_parsing api repo_name branch_name w)) = calls w.
Proof.
  intros Z.
  assert (E : start_repo_parsing api repo_name branch_name w
              = (Return invalid_repo_name, w)).
  { rewrite start_repo_parsing_run, rejected_iff_no_separator, Z. reflexivity. }
  split; [exact E | now rewrite E].
Qed.

Lemma start_repo_parsing_no_separator_witness :
  count_char separator "owner-repo" = 0 /\
  start_repo_parsing parse_ok "owner-repo" "main" (boot 0)
  = (Return invalid_repo_name, boot 0) /\
  calls (snd (start_repo_parsing parse_ok "owner-repo" "main" (boot 0))) = [].
Proof.
  split; [reflexivity|].
  apply (start_repo_parsing_no_separator parse_ok "owner-repo" "main" (boot 0)).
  reflexivity.
Defined.

(** C9.  [analyze_repository] and [get_repository_trends] both begin with
    the parse call (branch "main").  When the parse response is a record
    with no [project_id] field, or with an empty one (the empty string, or
    any other value that Python counts as false), each of them returns
    "Failed to get project_id when starting parsing for ..." (a string
    that names "project_id") and issues no other request. *)
Theorem missing_project_id (api : remote) (fuel : nat) (repo_name : string)
    (t0 : Q) (d : list (string * json)) :
  reply_answer (api 0) = Ok (JObj d) ->
  Py.dict_get d "project_id" = None \/
  (exists v, Py.dict_get d "project_id" = Some v /\ Py.truthy v = false) ->
  exists s w',
    analyze_repository api fuel repo_name (boot t0) = (Return s, w') /\
    get_repository_trends api fuel repo_name (boot t0) = (Return s, w') /\
    str_in "project_id" s = true /\
    calls w' = [parse_request repo_name "main"].
Proof.
  intros R0 Hd.
  assert (F : Py.truthy (Py.get d "project_id") = false).
  { unfold Py.get. destruct Hd as [-> | (v & -> & F)]; [reflexivity | exact F]. }
  exists (no_project_id repo_name (JObj d)).
  exists (after_request (boot t0) (parse_request repo_name "main") (took (api 0))).
  split; [|split; [|split]].
  - rewrite analyze_repository_run. cbv zeta. cbn [boot calls length].
    now rewrite R0, F.
  - rewrite get_repository_trends_run. cbv zeta. cbn [boot calls length].
    now rewrite R0, F.
  - exact (str_in_mid "Failed to get " "project_id"
             (" when starting parsing for " ++ repo_name
              ++ ". Response: " ++ Py.str (JObj d))).
  - reflexivity.
Qed.

Lemma missing_project_id_witness :
  reply_answer (parse_anonymous 0) = Ok (JObj [("detail", JStr "accepted")]) /\
  exists s w',
    analyze_repository parse_anonymous 62 "owner/repo" (boot 0) = (Return s, w') /\
    get_repository_trends parse_anonymous 62 "owner/repo" (boot 0)
    = (Return s, w') /\
    str_in "project_id" s = true /\
    calls w' = [parse_request "owner/repo" "main"].
Proof.
  split; [reflexivity|].
  apply (missing_project_id parse_anonymous 62 "owner/repo" 0
           [("detail", JStr "accepted")]).
  - reflexivity.
  - left. reflexivity.
Defined.

(** C10.  When [get_parsing_status] with [wait_for_ready] returns, what it
    returns is a record whose status is "ready".  So the value that
    [ask_parsed_repo] then reads with [parsing_status.get("status")] is
    "ready" and the test [!= "ready"] of its short-circuit is false; the
    branch returning "Project ... is not ready for querying" is never
    taken: whenever its wait (timeout 600, default interval) returns,
    [ask_parsed_repo] goes on to the create-conversation request. *)
Theorem wait_for_ready_returns_ready (api : remote) (fuel : nat)
    (project_id : json) (timeout interval : Z) (w w' : world)
    (parsing_status : json) :
  get_parsing_status api fuel project_id true timeout interval w
  = (Return parsing_status, w') ->
  has_status parsing_status "ready" /\
  (exists status,
      py_get parsing_status "status" w' = (Return status, w') /\
      not_ready status = false) /\
  (timeout = 600%Z -> interval = default_poll_interval ->
   forall query, exists rest,
     calls (snd (ask_parsed_repo api fuel project_id query w))
     = (calls w' ++ conversation_request project_id :: rest)%list).
Proof.
  intros H.
  assert (R : has_status parsing_status "ready").
  { eapply poll_returns_ready. rewrite <- get_parsing_status_run, H.
    reflexivity. }
  split; [exact R|]. destruct R as (d & -> & St). split.
  - exists (JStr "ready"). split; [|reflexivity].
    cbn [py_get ret]. unfold Py.get. now rewrite St.
  - intros -> -> query.
    rewrite (ask_parsed_repo_talks api fuel project_id query w d w' H St).
    cbv zeta.
    destruct (reply_answer (api (length (calls w')))) as [c|e];
      [|now exists []].
    destruct c; try (now exists []).
    destruct (Py.truthy (Py.get fields "conversation_id")); [|now exists []].
    exists [message_request (Py.get fields "conversation_id") query].
    destruct (reply_answer (api (S (length (calls w'))))); cbn;
      now rewrite <- app_assoc.
Qed.

Lemma wait_for_ready_returns_ready_witness :
  exists w',
    get_parsing_status queued_twice 5 (JStr "p1") true 600 10 (boot 0)
    = (Return (status_record "ready"), w') /\
    has_status (status_record "ready") "ready" /\
    (exists status,
        py_get (status_record "ready") "status" w' = (Return status, w') /\
        not_ready status = false) /\
    exists rest,
      calls (snd (ask_parsed_repo queued_twice 5 (JStr "p1") "How many?" (boot 0)))
      = (calls w' ++ conversation_request (JStr "p1") :: rest)%list.
Proof.
  eexists. split; [reflexivity|].
  destruct (wait_for_ready_returns_ready queued_twice 5 (JStr "p1") 600 10
              (boot 0) _ (status_record "ready") eq_refl) as (R & G & T).
  split; [exact R|]. split; [exact G|].
  exact (T eq_refl eq_refl "How many?").
Defined.

(** * Further properties of the client and the tools *)

(** ** More on the polling loop *)

Section MorePolling.

Variable api : remote.

Ltac one_round :=
  rewrite poll_round; cbv zeta; cbn [negb];
  repeat first
    [ match goal with
      | |- context [match reply_answer ?r with Ok _ => _ | Fail _ => _ end] =>
          let Hr := fresh "Hr" in destruct (reply_answer r) eqn:Hr
      end
    | match goal with
      | |- context [if negb ?b then _ else _] =>
          is_var b; destruct b; cbn [negb]
      end
    | match goal with
      | |- context [match ?j with JObj _ => _ | _ => _ end] =>
          is_var j; destruct j
      end
    | match goal with
      | |- context [if Py.eq_str ?x ?y then _ else _] =>
          let Hs := fresh "Hs" in destruct (Py.eq_str x y) eqn:Hs
      end
    | match goal with
      | |- context [if Qgtb ?a ?b then _ else _] =>
          let Ht := fresh "Ht" in destruct (Qgtb a b) eqn:Ht
      end
    | match goal with
      | |- context [if (?a <? 0)%Z then _ else _] =>
          let Hi := fresh "Hi" in destruct (a <? 0)%Z eqn:Hi
      end ].

(** A project that is ready at the first fetch. *)
Lemma wait_ready_at_once fuel pid timeout interval w d :
  reply_answer (api (length (calls w))) = Ok (JObj d) ->
  Py.dict_get d "status" = Some (JStr "ready") ->
  get_parsing_status api (S fuel) pid true timeout interval w
  = (Return (JObj d),
     after_request w (status_request (status_endpoint pid))
       (took (api (length (calls w))))).
Proof.
  intros Hr Hs. rewrite get_parsing_status_run.
  apply poll_round_ready; [exact Hr|]. now rewrite (status_is_ready _ _ Hs).
Qed.

(** Every round but the last has passed the deadline check and slept: the
    number of fetches is bounded by the time there is. *)
Lemma poll_count (fuel : nat) :
  forall pid ep wait timeout interval start w n,
    (0 <= interval)%Z ->
    length (calls (snd (poll api fuel pid ep wait timeout interval start w)))
    = (length (calls w) + n)%nat ->
    (2 <= n)%nat ->
    ((inject_Z (Z.of_nat n) - 2) * inject_Z interval
     <= inject_Z timeout - (now w - start))%Q.
Proof.
  induction fuel as [|fuel IH];
    intros pid ep wait timeout interval start w n Hi0 Hlen Hn.
  - cbn in Hlen. lia.
  - revert Hlen. one_round; cbn [snd];
      try (rewrite after_request_length; intros Hlen; exfalso; lia).
    intros Hlen.
    apply Qgtb_false in Ht. cbn [now after_request] in Ht.
    pose proof (took_not_negative (api (length (calls w)))) as Hd.
    assert (HP : (0 <= inject_Z interval)%Q)
      by (change 0%Q with (inject_Z 0); now rewrite <- Zle_Qle).
    destruct n as [|[|[|m]]]; try lia.
    + (* two fetches *)
      change (inject_Z (Z.of_nat 2)) with 2%Q.
      set (P := inject_Z interval) in *.
      assert (E : ((2 - 2) * P == 0)%Q) by ring.
      rewrite E. lra.
    + (* more: the rest is counted from the world after the sleep *)
      specialize (IH pid ep true timeout interval start
                    (after_sleep
                       (after_request w (status_request ep)
                          (took (api (length (calls w))))) interval)
                    (S (S m)) Hi0).
      cbn [after_sleep calls] in IH. rewrite after_request_length in IH.
      assert (L : (S (length (calls w)) + S (S m)
                   = length (calls w) + S (S (S m)))%nat) by lia.
      rewrite L in IH. specialize (IH Hlen ltac:(lia)).
      cbn [now after_request after_sleep] in IH.
      rewrite inject_nat_succ.
      set (P := inject_Z interval) in *.
      set (F := inject_Z (Z.of_nat (S (S m)))) in *.
      assert (E : ((F + 1 - 2) * P == (F - 2) * P + P)%Q) by ring.
      rewrite E. lra.
Qed.

(** While every reply from the current one on is a record that is not
    ready, the loop can only end by its [TimeoutError], and then the
    deadline has passed. *)
Lemma poll_pending_from (fuel : nat) :
  forall pid ep timeout interval start w,
    (forall n, (length (calls w) <= n)%nat -> pending (api n)) ->
    (0 <= interval)%Z ->
    fst (poll api fuel pid ep true timeout interval start w) = Diverge \/
    (fst (poll api fuel pid ep true timeout interval start w)
     = Raise (timed_out pid timeout) /\
     (inject_Z timeout
      < now (snd (poll api fuel pid ep true timeout interval start w)) - start)%Q).
Proof.
  induction fuel as [|fuel IH]; intros pid ep timeout interval start w Hp Hi0;
    [now left|].
  destruct (Hp (length (calls w)) (Nat.le_refl _)) as (d & Hd & Hnr).
  rewrite poll_round. cbv zeta. rewrite Hd. cbn [negb]. rewrite Hnr.
  destruct (Qgtb _ _) eqn:Ht.
  - right. split; [reflexivity|]. cbn [snd]. now apply Qgtb_true.
  - destruct (interval <? 0)%Z eqn:Hi; [apply Z.ltb_lt in Hi; lia|].
    apply IH; [|exact Hi0].
    intros n Hn. apply Hp. cbn [after_sleep calls] in Hn.
    rewrite after_request_length in Hn. lia.
Qed.

(** [n] rounds of waiting, one after the other. *)
Lemma after_rounds_calls ep interval n :
  forall w, calls (after_rounds api ep interval n w)
            = (calls w ++ repeat (status_request ep) n)%list.
Proof.
  induction n as [|n IH]; intros w; cbn [after_rounds repeat].
  - now rewrite app_nil_r.
  - rewrite IH. cbn [after_sleep after_request calls].
    now rewrite <- app_assoc.
Qed.

Lemma after_rounds_now ep interval n :
  forall w, (now (after_rounds api ep interval n w)
             == now w + waited api (length (calls w)) n interval)%Q.
Proof.
  induction n as [|n IH]; intros w; cbn [after_rounds waited].
  - ring.
  - rewrite IH. cbn [after_sleep calls now]. rewrite after_request_length.
    cbn [after_request now]. ring.
Qed.

Lemma poll_rounds (n : nat) :
  forall fuel pid ep timeout interval start w,
    (0 <= interval)%Z ->
    (forall i, (i < n)%nat -> pending (api (length (calls w) + i))) ->
    (forall i, (i < n)%nat ->
       (now w + waited api (length (calls w)) i interval
        + took (api (length (calls w) + i)%nat) - start <= inject_Z timeout)%Q) ->
    poll api (n + fuel) pid ep true timeout interval start w
    = poll api fuel pid ep true timeout interval start
        (after_rounds api ep interval n w).
Proof.
  induction n as [|n IH]; intros fuel pid ep timeout interval start w Hi0 Hp Ht;
    [reflexivity|].
  cbn [Nat.add after_rounds].
  destruct (Hp 0%nat ltac:(lia)) as (d & Hd & Hnr).
  rewrite Nat.add_0_r in Hd.
  pose proof (Ht 0%nat ltac:(lia)) as T0. cbn [waited] in T0.
  rewrite Nat.add_0_r in T0.
  rewrite poll_round_again with (d := d); [ | exact Hd | exact Hnr | lra | exact Hi0 ].
  apply IH; [exact Hi0 | |].
  - intros i Hi. cbn [after_sleep calls]. rewrite after_request_length.
    replace (S (length (calls w)) + i)%nat with (length (calls w) + S i)%nat by lia.
    apply Hp. lia.
  - intros i Hi. cbn [after_sleep calls now]. rewrite after_request_length.
    cbn [after_request now].
    replace (S (length (calls w)) + i)%nat with (length (calls w) + S i)%nat by lia.
    pose proof (Ht (S i) ltac:(lia)) as T. cbn [waited] in T. lra.
Qed.

(** The bound on the number of fetches, in whole numbers. *)
Lemma poll_fetch_bound (fuel : nat) (pid : json) (wait : bool)
    (timeout interval : Z) (w : world) :
  (0 < interval)%Z ->
  (0 <= timeout)%Z ->
  length (calls (snd (poll api fuel pid (status_endpoint pid) wait
                        timeout interval (now w) w)))
  <= length (calls w) + Z.to_nat (timeout / interval) + 2.
Proof.
  intros Hi Ht.
  destruct (poll_calls api fuel pid (status_endpoint pid)
              wait timeout interval (now w) w) as (n & _ & C).
  pose proof (poll_count fuel pid (status_endpoint pid)
                wait timeout interval (now w) w n) as B.
  rewrite C, length_app, repeat_length in B |- *.
  destruct (Nat.lt_ge_cases n 2) as [Small|Big]; [lia|].
  specialize (B ltac:(lia) eq_refl Big).
  assert (Bz : ((Z.of_nat n - 2) * interval <= timeout)%Z).
  { rewrite Zle_Qle, inject_Z_mult. unfold Z.sub.
    rewrite inject_Z_plus, inject_Z_opp.
    change (inject_Z 2) with 2%Q. lra. }
  assert (Q : (Z.of_nat n - 2 <= timeout / interval)%Z).
  { apply Z.div_le_lower_bound; [exact Hi | lia]. }
  assert (D : (0 <= timeout / interval)%Z) by (apply Z.div_pos; lia).
  lia.
Qed.

End MorePolling.

(** X1.  [get_parsing_status] with [wait_for_ready], in general: when the
    first [n] fetches return records that are not ready, each check finds
    the elapsed time within [timeout], and fetch number [n] returns a
    ready record, that record is returned after exactly [n + 1] fetches and
    [n] sleeps of [poll_interval] seconds.  The time the last fetch takes
    does not matter: readiness is tested before the deadline. *)
Theorem get_parsing_status_waits (api : remote) (fuel n : nat) (project_id : json)
    (timeout interval : Z) (t0 : Q) (d : list (string * json)) :
  (0 <= interval)%Z ->
  (forall i, i < n -> pending (api i)) ->
  (forall i, i < n ->
     (waited api 0%nat i interval + took (api i) <= inject_Z timeout)%Q) ->
  reply_answer (api n) = Ok (JObj d) ->
  Py.dict_get d "status" = Some (JStr "ready") ->
  exists w',
    get_parsing_status api (n + S fuel) project_id true timeout interval (boot t0)
    = (Return (JObj d), w') /\
    calls w' = repeat (status_request (status_endpoint project_id)) (S n) /\
    (now w' == t0 + waited api 0%nat n interval + took (api n))%Q.
Proof.
  intros Hi0 Hp Ht Hr Hs.
  pose (wn := after_rounds api (status_endpoint project_id) interval n (boot t0)).
  assert (C : calls wn = repeat (status_request (status_endpoint project_id)) n).
  { unfold wn. now rewrite after_rounds_calls. }
  assert (L : length (calls wn) = n) by (rewrite C; apply repeat_length).
  exists (after_request wn (status_request (status_endpoint project_id))
            (took (api n))).
  split; [|split].
  - rewrite get_parsing_status_run, poll_rounds; [ | exact Hi0 | | ].
    + fold wn.
      pose proof (poll_round_ready api fuel project_id
                    (status_endpoint project_id) timeout interval
                    (now (boot t0)) wn d) as R.
      rewrite L in R. apply R; [exact Hr|].
      now rewrite (status_is_ready _ _ Hs).
    + intros i Hi. apply Hp, Hi.
    + intros i Hi. cbn [boot now calls length Nat.add].
      specialize (Ht i Hi). lra.
  - cbn [after_request calls]. rewrite C.
    change (S n) with (1 + n). rewrite Nat.add_comm, repeat_app. reflexivity.
  - cbn [after_request now]. unfold wn. rewrite after_rounds_now.
    cbn [boot now calls length]. ring.
Qed.

Lemma get_parsing_status_waits_witness :
  exists w',
    get_parsing_status queued_twice (2 + 1) (JStr "p1") true 300 10 (boot 0)
    = (Return (status_record "ready"), w') /\
    calls w' = repeat (status_request (status_endpoint (JStr "p1"))) 3 /\
    (now w' == 0 + waited queued_twice 0%nat 2%nat 10 + took (queued_twice 2%nat))%Q.
Proof.
  apply (get_parsing_status_waits queued_twice 0 2 (JStr "p1") 300 10 0
           [("status", JStr "ready")]).
  - lia.
  - intros i Hi. destruct i as [|[|i]]; [ | | lia];
      (eexists; split; reflexivity).
  - intros i Hi. destruct i as [|[|i]]; [ | | lia]; unfold Qle; simpl; lia.
  - reflexivity.
  - reflexivity.
Defined.

(** X2.  [get_parsing_status] issues at most [timeout / poll_interval + 2]
    requests, whatever the remote API answers and however long the loop is
    let run: each fetch but the first follows a check that found the
    elapsed time within [timeout] and a sleep of [poll_interval]. *)
Theorem get_parsing_status_fetch_bound (api : remote) (fuel : nat)
    (project_id : json) (wait_for_ready : bool) (timeout interval : Z)
    (w : world) :
  (0 < interval)%Z ->
  (0 <= timeout)%Z ->
  length (calls (snd (get_parsing_status api fuel project_id wait_for_ready
                        timeout interval w)))
  <= length (calls w) + Z.to_nat (timeout / interval) + 2.
Proof.
  intros Hi Ht. rewrite get_parsing_status_run.
  apply poll_fetch_bound; assumption.
Qed.

Lemma get_parsing_status_fetch_bound_witness :
  length (calls (snd (get_parsing_status frozen_queue 100 (JStr "p1") true
                        30 10 (boot 0))))
  <= length (calls (boot 0)) + Z.to_nat (30 / 10) + 2.
Proof.
  apply (get_parsing_status_fetch_bound frozen_queue 100 (JStr "p1") true
           30 10 (boot 0)); lia.
Defined.

(** X3.  With a negative [timeout] the first check of the loop raises the
    [TimeoutError] whenever the first fetch returns a record that is not
    ready, even if the clock has not moved: the elapsed time is never
    below 0.  (Compare [timeout = 0], where the clock has to move.) *)
Theorem negative_timeout_first_check (api : remote) (fuel : nat)
    (project_id : json) (timeout interval : Z) (t0 : Q) :
  (timeout < 0)%Z ->
  pending (api 0) ->
  exists w',
    get_parsing_status api (S fuel) project_id true timeout interval (boot t0)
    = (Raise (timed_out project_id timeout), w') /\
    calls w' = [status_request (status_endpoint project_id)].
Proof.
  intros Ht (d & Hd & Hnr).
  eexists. split.
  - rewrite get_parsing_status_run.
    apply poll_round_deadline with (d := d); [exact Hd | exact Hnr |].
    cbn [boot now calls length].
    pose proof (took_not_negative (api 0)) as T.
    assert (N : (inject_Z timeout < 0)%Q)
      by (change 0%Q with (inject_Z 0); now rewrite <- Zlt_Qlt).
    lra.
  - reflexivity.
Qed.

Lemma negative_timeout_first_check_witness :
  pending (frozen_queue 0) /\
  exists w',
    get_parsing_status frozen_queue 1 (JStr "p1") true (-1) 0 (boot 0)
    = (Raise (timed_out (JStr "p1") (-1)), w') /\
    calls w' = [status_request (status_endpoint (JStr "p1"))].
Proof.
  assert (P : pending (frozen_queue 0)) by (eexists; split; reflexivity).
  split; [exact P|].
  apply (negative_timeout_first_check frozen_queue 0 (JStr "p1") (-1) 0 0);
    [lia | exact P].
Defined.

(** X4.  With a negative [poll_interval], a first fetch that is not ready
    and within the deadline is followed by [time.sleep] of a negative
    length, whose [ValueError] ends [get_parsing_status] after that one
    fetch. *)
Theorem negative_interval_raises (api : remote) (fuel : nat)
    (project_id : json) (timeout interval : Z) (t0 : Q) :
  (interval < 0)%Z ->
  pending (api 0) ->
  (took (api 0%nat) <= inject_Z timeout)%Q ->
  exists w',
    get_parsing_status api (S fuel) project_id true timeout interval (boot t0)
    = (Raise negative_sleep, w') /\
    calls w' = [status_request (status_endpoint project_id)].
Proof.
  intros Hi (d & Hd & Hnr) Ht.
  eexists. split.
  - rewrite get_parsing_status_run, poll_round. cbv zeta.
    cbn [boot now calls length] in *. rewrite Hd, Hnr. cbn [negb].
    assert (G : Qgtb (now (after_request (boot t0)
                             (status_request (status_endpoint project_id))
                             (took (api 0))) - t0) (inject_Z timeout) = false).
    { apply Qgtb_false. cbn [after_request boot now]. lra. }
    cbn [boot] in G. rewrite G.
    apply Z.ltb_lt in Hi. rewrite Hi. reflexivity.
  - reflexivity.
Qed.

Lemma negative_interval_raises_witness :
  pending (frozen_queue 0) /\
  exists w',
    get_parsing_status frozen_queue 1 (JStr "p1") true 300 (-10) (boot 0)
    = (Raise negative_sleep, w') /\
    calls w' = [status_request (status_endpoint (JStr "p1"))].
Proof.
  assert (P : pending (frozen_queue 0)) by (eexists; split; reflexivity).
  split; [exact P|].
  apply (negative_interval_raises frozen_queue 0 (JStr "p1") 300 (-10) 0);
    [lia | exact P | unfold Qle; simpl; lia].
Defined.

(** ** More on the runs of the tools *)

Section MoreTools.

Variable api : remote.

(** [ask_parsed_repo] on a project that is ready at the first fetch. *)
Lemma ask_ready_run fuel pid q w d :
  reply_answer (api (length (calls w))) = Ok (JObj d) ->
  Py.dict_get d "status" = Some (JStr "ready") ->
  ask_parsed_repo api (S fuel) pid q w =
  let k := length (calls w) in
  let w1 := after_request w (status_request (status_endpoint pid)) (took (api k)) in
  let w2 := after_request w1 (conversation_request pid) (took (api (S k))) in
  match reply_answer (api (S k)) with
  | Fail e => (Return (ask_failure e), w2)
  | Ok (JObj f) =>
      let cid := Py.get f "conversation_id" in
      if Py.truthy cid
      then
        let w3 := after_request w2 (message_request cid q)
                    (took (api (S (S k)))) in
        match reply_answer (api (S (S k))) with
        | Ok m => (Return (Py.str m), w3)
        | Fail e => (Return (ask_failure e), w3)
        end
      else (Return "Failed to create Potpie conversation.", w2)
  | Ok c => (Return (ask_failure (no_get c)), w2)
  end.
Proof.
  intros Hr Hs.
  rewrite (ask_parsed_repo_talks api (S fuel) pid q w d _
             (wait_ready_at_once api fuel pid 600 default_poll_interval w d Hr Hs)
             Hs).
  cbv zeta. rewrite after_request_length. reflexivity.
Qed.

(** [ask_parsed_repo] on a project that is not ready from the current
    reply on: the wait ends at the deadline, after at most 62 fetches. *)
Lemma ask_gives_up fuel pid q w :
  (forall n, length (calls w) <= n -> pending (api n)) ->
  exists w' n,
    ask_parsed_repo api (62 + fuel) pid q w
    = (Return (ask_failure (timed_out pid 600)), w') /\
    calls w' = (calls w ++ repeat (status_request (status_endpoint pid)) n)%list /\
    n <= 62 /\
    (600 < now w' - now w)%Q.
Proof.
  intros Hp.
  assert (I : (0 <= default_poll_interval)%Z) by (unfold default_poll_interval; lia).
  pose proof (poll_pending_from api (62 + fuel) pid (status_endpoint pid)
                600 default_poll_interval (now w) w Hp I) as P.
  pose proof (halts_get_parsing_status api fuel pid true 600
                (Z.le_refl 600) w) as H.
  destruct (poll_calls api (62 + fuel) pid (status_endpoint pid)
              true 600 default_poll_interval (now w) w) as (n & _ & C).
  pose proof (poll_fetch_bound api (62 + fuel) pid true 600
                default_poll_interval w eq_refl ltac:(lia)) as B.
  rewrite C, length_app, repeat_length in B.
  change (Z.to_nat (600 / default_poll_interval)) with 60 in B.
  rewrite <- get_parsing_status_run in P, C.
  destruct (get_parsing_status api (62 + fuel) pid true 600
              default_poll_interval w) as [r w'] eqn:G.
  cbn [fst snd] in P, H, C.
  destruct P as [-> | [-> T]]; [now elim H|].
  exists w', n. split; [now apply ask_parsed_repo_wait_raises|].
  split; [exact C|]. split; [lia|]. exact T.
Qed.

(** The requests of a run of [ask_parsed_repo]: status fetches, then at
    most the conversation and the message. *)
Lemma ask_shape fuel pid q w :
  exists n tail,
    calls (snd (ask_parsed_repo api fuel pid q w))
    = (calls w ++ repeat (status_request (status_endpoint pid)) n ++ tail)%list /\
    n <= 62 /\
    (tail = [] \/
     tail = [conversation_request pid] \/
     exists c,
       reply_answer (api (length (calls w) + n)) = Ok (JObj c) /\
       tail = [conversation_request pid;
               message_request (Py.get c "conversation_id") q]).
Proof.
  destruct (poll_calls api fuel pid (status_endpoint pid)
              true 600 default_poll_interval (now w) w) as (n & _ & C).
  pose proof (poll_fetch_bound api fuel pid true 600
                default_poll_interval w eq_refl ltac:(lia)) as B.
  rewrite C, length_app, repeat_length in B.
  change (Z.to_nat (600 / default_poll_interval)) with 60 in B.
  pose proof (poll_returns_ready api fuel pid (status_endpoint pid) 600
                default_poll_interval (now w) w) as PR.
  rewrite <- get_parsing_status_run in C, PR.
  destruct (get_parsing_status api fuel pid true 600 default_poll_interval w)
    as [[j|e1|] w1] eqn:G; cbn [fst snd] in C, PR.
  - destruct (PR j eq_refl) as (d & -> & St). clear PR.
    rewrite (ask_parsed_repo_talks api fuel pid q w d w1 G St). cbv zeta.
    assert (L : length (calls w1) = length (calls w) + n)
      by (rewrite C, length_app, repeat_length; reflexivity).
    exists n.
    destruct (reply_answer (api (length (calls w1)))) as [c|e2] eqn:R1.
    + destruct c;
        try (exists [conversation_request pid]; cbn [snd after_request calls];
             rewrite C, <- app_assoc; split; [reflexivity|];
             split; [lia | right; left; reflexivity]).
      destruct (Py.truthy (Py.get fields "conversation_id")).
      * exists [conversation_request pid;
                message_request (Py.get fields "conversation_id") q].
        split; [|split; [lia|]].
        -- destruct (reply_answer (api (S (length (calls w1)))));
             cbn [snd after_request calls];
             rewrite C, <- !app_assoc; reflexivity.
        -- right; right. exists fields. rewrite <- L. split; [exact R1|reflexivity].
      * exists [conversation_request pid]. cbn [snd after_request calls].
        rewrite C, <- app_assoc. split; [reflexivity|].
        split; [lia | right; left; reflexivity].
    + exists [conversation_request pid]. cbn [snd after_request calls].
      rewrite C, <- app_assoc. split; [reflexivity|].
      split; [lia | right; left; reflexivity].
  - rewrite (ask_parsed_repo_wait_raises api fuel pid q w e1 w1 G).
    exists n, []. cbn [snd]. rewrite app_nil_r.
    split; [exact C|]. split; [lia | left; reflexivity].
  - unfold ask_parsed_repo, try_except, bind. rewrite G.
    exists n, []. cbn [snd]. rewrite app_nil_r.
    split; [exact C|]. split; [lia | left; reflexivity].
Qed.


End MoreTools.

(** ** [start_repo_parsing] and [check_repo_parsing_status] *)

(** X5.  For a repository name with a separator, when the parse response
    is a record with a [project_id], [start_repo_parsing] issues exactly
    one request (the parse request for that name and branch) and returns
    the success text, which carries [str(project_id)]. *)
Theorem start_repo_parsing_success (api : remote) (repo_name branch_name : string)
    (t0 : Q) (d : list (string * json)) (project_id : json) :
  1 <= count_char separator repo_name ->
  reply_answer (api 0) = Ok (JObj d) ->
  Py.dict_get d "project_id" = Some project_id ->
  exists s w',
    start_repo_parsing api repo_name branch_name (boot t0) = (Return s, w') /\
    s = "Successfully started parsing repository " ++ repo_name ++ newline
        ++ "Project ID: " ++ Py.str project_id ++ newline
        ++ "Status: Parsing initiated" /\
    str_in (Py.str project_id) s = true /\
    calls w' = [parse_request repo_name branch_name].
Proof.
  intros Hsep Hr Hd. eexists. eexists. split; [|split; [reflexivity|split]].
  - rewrite start_repo_parsing_run, rejected_iff_no_separator.
    destruct (Nat.eqb_spec (count_char separator repo_name) 0) as [Z|_]; [lia|].
    cbv zeta. cbn [boot calls length]. rewrite Hr, Hd. reflexivity.
  - do 4 apply str_in_app_r. apply str_in_prefix, prefix_app.
  - reflexivity.
Qed.

Lemma start_repo_parsing_success_witness :
  1 <= count_char separator "owner/repo" /\
  exists s w',
    start_repo_parsing parse_ok "owner/repo" "dev" (boot 0) = (Return s, w') /\
    s = "Successfully started parsing repository " ++ "owner/repo" ++ newline
        ++ "Project ID: " ++ Py.str (JStr "p1") ++ newline
        ++ "Status: Parsing initiated" /\
    str_in (Py.str (JStr "p1")) s = true /\
    calls w' = [parse_request "owner/repo" "dev"].
Proof.
  split; [cbn; lia|].
  apply (start_repo_parsing_success parse_ok "owner/repo" "dev" 0
           [("project_id", JStr "p1")] (JStr "p1")); [cbn; lia | | ]; reflexivity.
Defined.

(** X6.  The two ways of starting a parse disagree on a parse response
    whose [project_id] is present but empty ([""], [null], [0], ...):
    [start_repo_parsing] only tests that the key is there and reports
    success, while [analyze_repository] tests the value and reports that
    it got no project id.  Each issues the one parse request. *)
Theorem empty_project_id_two_answers (api : remote) (fuel : nat)
    (repo_name : string) (t0 : Q) (d : list (string * json)) (v : json) :
  1 <= count_char separator repo_name ->
  reply_answer (api 0) = Ok (JObj d) ->
  Py.dict_get d "project_id" = Some v ->
  Py.truthy v = false ->
  exists w',
    start_repo_parsing api repo_name "main" (boot t0)
    = (Return ("Successfully started parsing repository " ++ repo_name ++ newline
               ++ "Project ID: " ++ Py.str v ++ newline
               ++ "Status: Parsing initiated"), w') /\
    analyze_repository api fuel repo_name (boot t0)
    = (Return (no_project_id repo_name (JObj d)), w') /\
    calls w' = [parse_request repo_name "main"].
Proof.
  intros Hsep Hr Hd Hv. eexists. split; [|split].
  - rewrite start_repo_parsing_run, rejected_iff_no_separator.
    destruct (Nat.eqb_spec (count_char separator repo_name) 0) as [Z|_]; [lia|].
    cbv zeta. cbn [boot calls length]. rewrite Hr, Hd. reflexivity.
  - rewrite analyze_repository_run. cbv zeta. cbn [boot calls length].
    rewrite Hr. unfold Py.get. rewrite Hd, Hv. reflexivity.
  - reflexivity.
Qed.

Lemma empty_project_id_two_answers_witness :
  Py.truthy JNull = false /\
  exists w',
    start_repo_parsing parse_null "owner/repo" "main" (boot 0)
    = (Return ("Successfully started parsing repository " ++ "owner/repo" ++ newline
               ++ "Project ID: " ++ "None" ++ newline
               ++ "Status: Parsing initiated"), w') /\
    analyze_repository parse_null 62 "owner/repo" (boot 0)
    = (Return (no_project_id "owner/repo" (JObj [("project_id", JNull)])), w') /\
    calls w' = [parse_request "owner/repo" "main"].
Proof.
  split; [reflexivity|].
  apply (empty_project_id_two_answers parse_null 62 "owner/repo" 0
           [("project_id", JNull)] JNull); [cbn; lia | | | ]; reflexivity.
Defined.

(** X7.  When the parse response is not a record, or is a record without
    the key [project_id], [start_repo_parsing] returns "Failed to parse
    repository: Invalid API response format" after its one request. *)
Theorem start_repo_parsing_malformed (api : remote) (repo_name branch_name : string)
    (t0 : Q) (j : json) :
  1 <= count_char separator repo_name ->
  reply_answer (api 0) = Ok j ->
  (forall d, j = JObj d -> Py.dict_get d "project_id" = None) ->
  exists w',
    start_repo_parsing api repo_name branch_name (boot t0)
    = (Return "Failed to parse repository: Invalid API response format", w') /\
    calls w' = [parse_request repo_name branch_name].
Proof.
  intros Hsep Hr Hj. eexists. split.
  - rewrite start_repo_parsing_run, rejected_iff_no_separator.
    destruct (Nat.eqb_spec (count_char separator repo_name) 0) as [Z|_]; [lia|].
    cbv zeta. cbn [boot calls length]. rewrite Hr.
    destruct j; try reflexivity.
    rewrite (Hj fields eq_refl). reflexivity.
  - reflexivity.
Qed.

Lemma start_repo_parsing_malformed_witness :
  reply_answer (parse_anonymous 0) = Ok (JObj [("detail", JStr "accepted")]) /\
  exists w',
    start_repo_parsing parse_anonymous "owner/repo" "main" (boot 0)
    = (Return "Failed to parse repository: Invalid API response format", w') /\
    calls w' = [parse_request "owner/repo" "main"].
Proof.
  split; [reflexivity|].
  apply (start_repo_parsing_malformed parse_anonymous "owner/repo" "main" 0
           (JObj [("detail", JStr "accepted")])).
  - cbn; lia.
  - reflexivity.
  - intros d [= <-]. reflexivity.
Defined.

(** X8.  [check_repo_parsing_status] never waits and always returns: for
    an empty [project_id] it leaves the world untouched (no request), and
    for any other it issues exactly one status request and the clock moves
    by the time of that request only, whatever the status is. *)
Theorem check_repo_parsing_status_never_waits (api : remote) (fuel : nat)
    (project_id : string) (w : world) :
  exists s,
    check_repo_parsing_status api (S fuel) project_id w
    = (Return s,
       if String.eqb project_id "" then w
       else after_request w (status_request (status_endpoint (JStr project_id)))
              (took (api (length (calls w))))).
Proof.
  rewrite check_repo_parsing_status_run.
  destruct (String.eqb project_id ""); [eexists; reflexivity|].
  cbv zeta. destruct (reply_answer (api (length (calls w)))) as [j|e];
    [|eexists; reflexivity].
  destruct j; try (eexists; reflexivity).
  destruct (Py.truthy (Py.get fields "status")); eexists; reflexivity.
Qed.

(** X9.  For a non-empty [project_id], when the status response is a
    record whose [status] is a value that Python counts as true,
    [check_repo_parsing_status] returns "Current parsing status: "
    followed by [str] of it, be it "ready" or not. *)
Theorem check_repo_parsing_status_reports (api : remote) (fuel : nat)
    (project_id : string) (t0 : Q) (d : list (string * json)) (status : json) :
  project_id <> "" ->
  reply_answer (api 0) = Ok (JObj d) ->
  Py.dict_get d "status" = Some status ->
  Py.truthy status = true ->
  fst (check_repo_parsing_status api (S fuel) project_id (boot t0))
  = Return ("Current parsing status: " ++ Py.str status).
Proof.
  intros Hne Hr Hd Hv. rewrite check_repo_parsing_status_run.
  apply String.eqb_neq in Hne. rewrite Hne. cbv zeta.
  cbn [boot calls length]. rewrite Hr. unfold Py.get. rewrite Hd, Hv.
  reflexivity.
Qed.

Lemma check_repo_parsing_status_reports_witness :
  "p1" <> "" /\
  fst (check_repo_parsing_status frozen_queue 1 "p1" (boot 0))
  = Return ("Current parsing status: " ++ "queued").
Proof.
  split; [discriminate|].
  apply (check_repo_parsing_status_reports frozen_queue 0 "p1" 0
           [("status", JStr "queued")] (JStr "queued"));
    [discriminate | | | ]; reflexivity.
Defined.

(** X10.  For a non-empty [project_id], a status response that is a
    record without a [status], or with one that Python counts as false,
    gives "Failed to get parsing status: Invalid response format"; a
    response that is not a record gives "Failed to get parsing status:
    Invalid API response type". *)
Theorem check_repo_parsing_status_malformed (api : remote) (fuel : nat)
    (project_id : string) (t0 : Q) (j : json) :
  project_id <> "" ->
  reply_answer (api 0) = Ok j ->
  (forall d, j = JObj d -> Py.truthy (Py.get d "status") = false) ->
  fst (check_repo_parsing_status api (S fuel) project_id (boot t0))
  = Return (if Py.is_dict j
            then "Failed to get parsing status: Invalid response format"
            else "Failed to get parsing status: Invalid API response type").
Proof.
  intros Hne Hr Hj. rewrite check_repo_parsing_status_run.
  apply String.eqb_neq in Hne. rewrite Hne. cbv zeta.
  cbn [boot calls length]. rewrite Hr.
  destruct j; try reflexivity.
  rewrite (Hj fields eq_refl). reflexivity.
Qed.

Lemma check_repo_parsing_status_malformed_witness :
  "p1" <> "" /\
  fst (check_repo_parsing_status parse_ok 1 "p1" (boot 0))
  = Return "Failed to get parsing status: Invalid response format".
Proof.
  split; [discriminate|].
  apply (check_repo_parsing_status_malformed parse_ok 0 "p1" 0
           (JObj [("project_id", JStr "p1")])).
  - discriminate.
  - reflexivity.
  - intros d [= <-]. reflexivity.
Defined.

(** ** [ask_parsed_repo], [analyze_repository], [get_repository_trends] *)

(** X11.  Whatever the remote API answers, the requests of a run of
    [ask_parsed_repo] are, in order: at most 62 fetches of the status of
    the project, then nothing more, or the create-conversation request,
    or that request followed by one message request, which goes to the
    [conversation_id] the remote API returned for it.  So a message is
    never sent without a conversation, and a run issues at most 64
    requests. *)
Theorem ask_parsed_repo_requests (api : remote) (fuel : nat)
    (project_id : json) (query : string) (t0 : Q) :
  exists n tail,
    calls (snd (ask_parsed_repo api fuel project_id query (boot t0)))
    = (repeat (status_request (status_endpoint project_id)) n ++ tail)%list /\
    n <= 62 /\
    (tail = [] \/
     tail = [conversation_request project_id] \/
     exists c,
       reply_answer (api n) = Ok (JObj c) /\
       tail = [conversation_request project_id;
               message_request (Py.get c "conversation_id") query]) /\
    length (calls (snd (ask_parsed_repo api fuel project_id query (boot t0))))
    <= 64.
Proof.
  destruct (ask_shape api fuel project_id query (boot t0))
    as (n & tail & C & B & T).
  cbn [boot calls length app Nat.add] in C, T.
  exists n, tail. split; [exact C|]. split; [exact B|]. split; [exact T|].
  rewrite C, length_app, repeat_length.
  destruct T as [-> | [-> | (c & _ & ->)]]; cbn [length]; lia.
Qed.

(** X12.  When the project is ready at the first fetch but the
    create-conversation response is a record without a [conversation_id]
    (or with an empty one), [ask_parsed_repo] returns "Failed to create
    Potpie conversation." and sends no message. *)
Theorem ask_without_conversation_id (api : remote) (fuel : nat)
    (project_id : json) (query : string) (t0 : Q)
    (st c : list (string * json)) :
  reply_answer (api 0) = Ok (JObj st) ->
  Py.dict_get st "status" = Some (JStr "ready") ->
  reply_answer (api 1) = Ok (JObj c) ->
  Py.truthy (Py.get c "conversation_id") = false ->
  exists w',
    ask_parsed_repo api (S fuel) project_id query (boot t0)
    = (Return "Failed to create Potpie conversation.", w') /\
    calls w' = [ status_request (status_endpoint project_id);
                 conversation_request project_id ].
Proof.
  intros H0 Hs H1 Hc. eexists. split.
  - rewrite (ask_ready_run api fuel project_id query (boot t0) st H0 Hs).
    cbv zeta. cbn [boot calls length]. rewrite H1, Hc. reflexivity.
  - reflexivity.
Qed.

Lemma ask_without_conversation_id_witness :
  reply_answer (no_conversation 1) = Ok (JObj [("detail", JStr "busy")]) /\
  exists w',
    ask_parsed_repo no_conversation 1 (JStr "p1") "How many?" (boot 0)
    = (Return "Failed to create Potpie conversation.", w') /\
    calls w' = [ status_request (status_endpoint (JStr "p1"));
                 conversation_request (JStr "p1") ].
Proof.
  split; [reflexivity|].
  apply (ask_without_conversation_id no_conversation 0 (JStr "p1") "How many?" 0
           [("status", JStr "ready")] [("detail", JStr "busy")]); reflexivity.
Defined.

(** X13.  [ask_parsed_repo] does not give up early: when the status never
    gets ready, the timeout string it returns names the project and the
    600 seconds, and by then more than 600 seconds have passed on the clock
    since the call, after at most 62 status fetches. *)
Theorem ask_waits_the_full_deadline (api : remote) (fuel : nat)
    (project_id : json) (query : string) (t0 : Q) :
  (forall n, pending (api n)) ->
  exists w' n,
    ask_parsed_repo api (62 + fuel) project_id query (boot t0)
    = (Return ("Timeout waiting for repository parsing to complete: Project "
               ++ Py.str project_id
               ++ " did not become ready within 600 seconds."), w') /\
    calls w' = repeat (status_request (status_endpoint project_id)) n /\
    n <= 62 /\
    (600 < now w' - t0)%Q.
Proof.
  intros Hp.
  destruct (ask_gives_up api fuel project_id query (boot t0)
              (fun n _ => Hp n)) as (w' & n & E & C & B & T).
  exists w', n. split; [exact E|]. split; [exact C|]. split; [exact B | exact T].
Qed.

Lemma ask_waits_the_full_deadline_witness :
  (forall n, pending (slow_queue n)) /\
  exists w' n,
    ask_parsed_repo slow_queue 62 (JStr "p1") "How many?" (boot 0)
    = (Return ("Timeout waiting for repository parsing to complete: Project "
               ++ "p1" ++ " did not become ready within 600 seconds."), w') /\
    calls w' = repeat (status_request (status_endpoint (JStr "p1"))) n /\
    n <= 62 /\
    (600 < now w' - 0)%Q.
Proof.
  assert (P : forall n, pending (slow_queue n))
    by (intros n; eexists; split; reflexivity).
  split; [exact P|].
  exact (ask_waits_the_full_deadline slow_queue 0 (JStr "p1") "How many?" 0 P).
Defined.







(** X17.  [get_repository_trends] never takes its two branches for a
    [dict] response: what it returns never starts with "Potpie query
    failed for trends: " nor with "Potpie trends response for ". *)
Theorem trends_record_branches_dead (api : remote) (fuel : nat)
    (repo_name : string) (w : world) (s : string) :
  fst (get_repository_trends api fuel repo_name w) = Return s ->
  startswith s "Potpie query failed for trends: " = false /\
  startswith s "Potpie trends response for " = false.
Proof.
  rewrite get_repository_trends_run. cbv zeta.
  destruct (reply_answer (api (length (calls w)))) as [j|e].
  - destruct j; cbn [fst];
      try (intros [= <-]; unfold trends_failure, no_get; cbn [isinstance exn_class];
           split; reflexivity).
    destruct (Py.truthy (Py.get fields "project_id")).
    + destruct (ask_parsed_repo api fuel _ trends_query _) as [[r|e|] w2];
        cbn [fst]; [ | | discriminate].
      * intros [= <-]. split; reflexivity.
      * intros [= <-]. unfold trends_failure.
        destruct (isinstance e TimeoutError); split; reflexivity.
    + cbn [fst]. intros [= <-]. split; reflexivity.
  - cbn [fst]. intros [= <-]. unfold trends_failure.
    destruct (isinstance e TimeoutError); split; reflexivity.
Qed.

Lemma trends_record_branches_dead_witness :
  startswith ("Potpie trends raw response for owner/repo: {'message': '42'}")
             "Potpie query failed for trends: " = false /\
  startswith ("Potpie trends raw response for owner/repo: {'message': '42'}")
             "Potpie trends response for " = false.
Proof.
  apply (trends_record_branches_dead full_script 1 "owner/repo" (boot 0)).
  reflexivity.
Defined.

(** X18.  When the parse response is not a record, [analyze_repository]
    and [get_repository_trends] fail on [parse_result.get]: the
    [AttributeError] is caught by their [except Exception] clause, and the
    string returned names the type of the response, not the project id.
    No other request is issued. *)
Theorem parse_response_not_a_record (api : remote) (fuel : nat)
    (repo_name : string) (t0 : Q) (j : json) :
  reply_answer (api 0) = Ok j ->
  Py.is_dict j = false ->
  exists w',
    analyze_repository api fuel repo_name (boot t0)
    = (Return ("Failed to analyze repository: '" ++ Py.type_name j
               ++ "' object has no attribute 'get'"), w') /\
    get_repository_trends api fuel repo_name (boot t0)
    = (Return ("Failed to get repository trends: '" ++ Py.type_name j
               ++ "' object has no attribute 'get'"), w') /\
    calls w' = [parse_request repo_name "main"].
Proof.
  intros H0 Hj. eexists. split; [|split].
  - rewrite analyze_repository_run. cbv zeta. cbn [boot calls length].
    rewrite H0. destruct j; try discriminate; reflexivity.
  - rewrite get_repository_trends_run. cbv zeta. cbn [boot calls length].
    rewrite H0. destruct j; try discriminate; reflexivity.
  - reflexivity.
Qed.

Lemma parse_response_not_a_record_witness :
  Py.is_dict JNull = false /\
  exists w',
    analyze_repository (fun _ => mkReply 1 (Ok JNull) eq_refl) 1 "owner/repo" (boot 0)
    = (Return ("Failed to analyze repository: '" ++ Py.type_name JNull
               ++ "' object has no attribute 'get'"), w') /\
    get_repository_trends (fun _ => mkReply 1 (Ok JNull) eq_refl) 1 "owner/repo"
      (boot 0)
    = (Return ("Failed to get repository trends: '" ++ Py.type_name JNull
               ++ "' object has no attribute 'get'"), w') /\
    calls w' = [parse_request "owner/repo" "main"].
Proof.
  split; [reflexivity|].
  apply (parse_response_not_a_record (fun _ => mkReply 1 (Ok JNull) eq_refl) 1
           "owner/repo" 0 JNull); reflexivity.
Defined.

(** X19.  [analyze_repository] and [get_repository_trends] always begin
    with the parse request for branch "main", whatever the name looks like
    (they do not validate it), and a run issues at most 65 requests. *)
Theorem composite_tools_requests (api : remote) (fuel : nat)
    (repo_name : string) (t0 : Q) :
  (exists rest,
      calls (snd (analyze_repository api fuel repo_name (boot t0)))
      = parse_request repo_name "main" :: rest /\ length rest <= 64) /\
  (exists rest,
      calls (snd (get_repository_trends api fuel repo_name (boot t0)))
      = parse_request repo_name "main" :: rest /\ length rest <= 64).
Proof.
  assert (A : forall q,
             exists rest,
               calls (snd (ask_parsed_repo api fuel
                             (Py.get (match reply_answer (api 0) with
                                      | Ok (JObj f) => f
                                      | _ => []
                                      end) "project_id") q
                             (after_request (boot t0)
                                (parse_request repo_name "main") (took (api 0)))))
               = parse_request repo_name "main" :: rest /\ length rest <= 64).
  { intros q.
    destruct (ask_shape api fuel
                (Py.get (match reply_answer (api 0) with
                         | Ok (JObj f) => f
                         | _ => []
                         end) "project_id") q
                (after_request (boot t0) (parse_request repo_name "main")
                   (took (api 0)))) as (n & tail & C & B & T).
    exists (repeat (status_request
                      (status_endpoint
                         (Py.get (match reply_answer (api 0) with
                                  | Ok (JObj f) => f
                                  | _ => []
                                  end) "project_id"))) n ++ tail)%list.
    split; [exact C|].
    rewrite length_app, repeat_length.
    destruct T as [-> | [-> | (c & _ & ->)]]; cbn [length]; lia. }
  split.
  - rewrite analyze_repository_run. cbv zeta. cbn [boot calls length].
    destruct (reply_answer (api 0)) as [j|e] eqn:R0;
      [|exists []; split; [reflexivity | cbn; lia]].
    destruct j; try (exists []; split; [reflexivity | cbn; lia]).
    destruct (Py.truthy (Py.get fields "project_id"));
      [|exists []; split; [reflexivity | cbn; lia]].
    destruct (A analysis_query) as (rest & C & B).
    cbn [boot] in C.
    destruct (ask_parsed_repo api fuel _ analysis_query _) as [[s|e|] w2];
      cbn [snd] in C |- *; exists rest; split; assumption.
  - rewrite get_repository_trends_run. cbv zeta. cbn [boot calls length].
    destruct (reply_answer (api 0)) as [j|e] eqn:R0;
      [|exists []; split; [reflexivity | cbn; lia]].
    destruct j; try (exists []; split; [reflexivity | cbn; lia]).
    destruct (Py.truthy (Py.get fields "project_id"));
      [|exists []; split; [reflexivity | cbn; lia]].
    destruct (A trends_query) as (rest & C & B).
    cbn [boot] in C.
    destruct (ask_parsed_repo api fuel _ trends_query _) as [[s|e|] w2];
      cbn [snd] in C |- *; exists rest; split; assumption.
Qed.

(** ** Start-up *)

(** X20.  The two start-up guards agree.  The agent gets its tools, all
    five of them, exactly when both keys are set to a non-empty text, and
    that is exactly when [main] reads a message and hands it, unchanged, to
    the agent; with a key missing there is no tool, and [main] prints its
    one CRITICAL line and does nothing else: it neither asks for input nor
    runs the agent. *)
Theorem main_runs_agent_iff_tools (GROQ_API_KEY POTPIE_API_KEY : option string)
    (typed : string) :
  (In (AgentRun typed) (main GROQ_API_KEY POTPIE_API_KEY typed)
   <-> length (agent_tools GROQ_API_KEY POTPIE_API_KEY) = 5) /\
  (length (agent_tools GROQ_API_KEY POTPIE_API_KEY) = 5
   <-> env_set GROQ_API_KEY = true /\ env_set POTPIE_API_KEY = true) /\
  (length (agent_tools GROQ_API_KEY POTPIE_API_KEY) <> 5 ->
   agent_tools GROQ_API_KEY POTPIE_API_KEY = [] /\
   exists line, main GROQ_API_KEY POTPIE_API_KEY typed = [Print line]) /\
  (forall message,
      In (AgentRun message) (main GROQ_API_KEY POTPIE_API_KEY typed) ->
      message = typed).
Proof.
  unfold main, agent_tools.
  destruct (env_set GROQ_API_KEY), (env_set POTPIE_API_KEY); cbn [negb orb].
  - split; [|split; [|split]].
    + split; [reflexivity | intros _; cbn; tauto].
    + split; [tauto | reflexivity].
    + intros N. now elim N.
    + intros message [H|[H|[H|[H|[]]]]]; try discriminate. now injection H.
  - split; [|split; [|split]].
    + split; [intros [H|[]]; discriminate | discriminate].
    + split; [discriminate | intros [_ H]; discriminate].
    + intros _. split; [reflexivity | eexists; reflexivity].
    + intros message [H|[]]. discriminate.
  - split; [|split; [|split]].
    + split; [intros [H|[]]; discriminate | discriminate].
    + split; [discriminate | intros [H _]; discriminate].
    + intros _. split; [reflexivity | eexists; reflexivity].
    + intros message [H|[]]. discriminate.
  - split; [|split; [|split]].
    + split; [intros [H|[]]; discriminate | discriminate].
    + split; [discriminate | intros [H _]; discriminate].
    + intros _. split; [reflexivity | eexists; reflexivity].
    + intros message [H|[]]. discriminate.
Qed.
